(** * Image and inference retrieval: a shallow embedding of
      [src/pages/api/getImagesAndInferences.ts]

    The file embeds the three functions of the API route
    ([convertTimestampToDate], [getImageAndInference], [handler]) together
    with the parts of the JavaScript runtime and of date-fns they call
    ([String.prototype.slice], [Number], the [Date] constructor, [format],
    [utcToZonedTime], [String.prototype.replace], [parseInt]).

    Conventions.
    - A JavaScript string is a [string]; its code units are [ascii] codes.
    - A JavaScript number is a [JSNumber]: [NaN], an infinity, or an exact
      rational.  Rounding to binary64 is not modelled; the numbers the route
      computes with are integers far below 2^53, and [Number] is only applied
      to slices of at most four characters.
    - A time value is an [option Z]: [None] is the NaN of an Invalid Date.
    - The host time zone is a fixed offset [LocalTZA] (milliseconds east of
      UTC); zones with daylight-saving transitions are outside the model.
    - A function that can throw returns a [Result]. *)

From Stdlib Require Import ZArith QArith List String Ascii Bool Lia.
From Stdlib Require Import DecimalString.
Import ListNotations.

Local Open Scope string_scope.
Local Open Scope Z_scope.

(* ------------------------------------------------------------------ *)
(** ** Thrown values *)

(** What a [catch] clause of the route can observe of a thrown value: the
    [message] of an [Error], and [response.data.message] when the value is
    a failure of the HTTP client that carries a structured response. *)
Record JSError : Type := mkError {
  message : string;
  response : option string
}.

(** [new Error(msg)] *)
Definition Error (msg : string) : JSError := mkError msg None.

Inductive Result (A : Type) : Type :=
| Ok (a : A)
| Throw (e : JSError).

Arguments Ok {A} a.
Arguments Throw {A} e.

Definition bind {A B} (r : Result A) (k : A -> Result B) : Result B :=
  match r with
  | Ok a => k a
  | Throw e => Throw e
  end.

(** [try { body } catch (err) { handler(err) }] *)
Definition try_catch {A} (body : Result A) (handler : JSError -> Result A)
  : Result A :=
  match body with
  | Ok a => Ok a
  | Throw e => handler e
  end.

Declare Scope result_scope.
Delimit Scope result_scope with result.
Notation "x <- c ;; k" := (bind c (fun x => k))
  (at level 61, c at next level, right associativity) : result_scope.
Notation "' p <- c ;; k" := (bind c (fun x => match x with p => k end))
  (at level 61, p pattern, c at next level, right associativity) : result_scope.
Local Open Scope result_scope.

(* ------------------------------------------------------------------ *)
(** ** Strings *)

Module JSString.

Definition code (c : ascii) : Z := Z.of_N (N_of_ascii c).

(** [s.slice(b, e)] for constants [0 <= b <= e]: the code units from [b]
    up to [e], clamped to the length of [s]. *)
Definition slice (s : string) (b e : nat) : string :=
  substring b (e - b) s.

Fixpoint drop (n : nat) (s : string) : string :=
  match n, s with
  | 0%nat, _ => s
  | S _, EmptyString => EmptyString
  | S n', String _ s' => drop n' s'
  end.

(** [s.replace(pat, rep)] with a string pattern: only the first
    occurrence of [pat] is replaced.  ([rep] holds no [$] pattern at the
    one call site, where it is empty.) *)
Fixpoint replace (s pat rep : string) : string :=
  if prefix pat s then rep ++ drop (String.length pat) s
  else match s with
       | EmptyString => EmptyString
       | String c s' => String c (replace s' pat rep)
       end.

(** [a < b] on strings: lexicographic on code units, a proper prefix
    being smaller. *)
Definition lt (a b : string) : bool := String.ltb a b.
Definition le (a b : string) : bool := String.leb a b.

(** Truthiness of a string: only the empty string is falsy. *)
Definition truthy (s : string) : bool :=
  match s with EmptyString => false | _ => true end.

End JSString.

(* ------------------------------------------------------------------ *)
(** ** Numbers *)

Inductive JSNumber : Type :=
| NaN
| PosInf
| NegInf
| Fin (q : Q).

Module JSNum.

Definition ofZ (z : Z) : JSNumber := Fin (inject_Z z).

Definition neg (x : JSNumber) : JSNumber :=
  match x with
  | NaN => NaN
  | PosInf => NegInf
  | NegInf => PosInf
  | Fin q => Fin (Qopp q)
  end.

(** [x - y] *)
Definition sub (x y : JSNumber) : JSNumber :=
  match x, y with
  | NaN, _ | _, NaN => NaN
  | PosInf, PosInf | NegInf, NegInf => NaN
  | PosInf, _ | _, NegInf => PosInf
  | NegInf, _ | _, PosInf => NegInf
  | Fin a, Fin b => Fin (Qminus a b)
  end.

(** Truncation of a rational towards zero. *)
Definition trunc (q : Q) : Z := Z.quot (Qnum q) (Z.pos (Qden q)).

(** The integer of a finite number ([ToIntegerOrInfinity] where it is
    finite), [None] for NaN and the infinities. *)
Definition finiteInteger (x : JSNumber) : option Z :=
  match x with
  | Fin q => Some (trunc q)
  | _ => None
  end.

(** [m * 10^e] *)
Definition scale10 (m e : Z) : Q :=
  if 0 <=? e then inject_Z (m * 10 ^ e)
  else Qmake m (Z.to_pos (10 ^ (- e))).

End JSNum.

(** *** [Number(string)]: the StringNumericLiteral grammar *)

Module StringToNumber.
Import JSString.

Definition isWhiteSpace (c : ascii) : bool :=
  let n := code c in
  ((9 <=? n) && (n <=? 13)) || (n =? 32) || (n =? 160).

Definition isDecimalDigit (c : ascii) : bool :=
  (48 <=? code c) && (code c <=? 57).

(** Value of a digit in the given radix, [None] when it is none. *)
Definition digitValue (radix : Z) (c : ascii) : option Z :=
  let n := code c in
  let v := if (48 <=? n) && (n <=? 57) then n - 48
           else if (97 <=? n) && (n <=? 102) then n - 87
           else if (65 <=? n) && (n <=? 70) then n - 55
           else radix in
  if v <? radix then Some v else None.

(** Value of a non-empty run of digits; [None] on a foreign character. *)
Fixpoint digitsValue (radix acc : Z) (l : list ascii) : option Z :=
  match l with
  | [] => Some acc
  | c :: l' =>
      match digitValue radix c with
      | Some v => digitsValue radix (radix * acc + v) l'
      | None => None
      end
  end.

Definition digits (radix : Z) (l : list ascii) : option Z :=
  match l with
  | [] => None
  | _ => digitsValue radix 0 l
  end.

(** Longest prefix of decimal digits, and what follows it. *)
Fixpoint spanDigits (l : list ascii) : list ascii * list ascii :=
  match l with
  | c :: l' =>
      if isDecimalDigit c
      then let (ds, r) := spanDigits l' in (c :: ds, r)
      else ([], l)
  | [] => ([], [])
  end.

Fixpoint dropWhile (f : ascii -> bool) (l : list ascii) : list ascii :=
  match l with
  | c :: l' => if f c then dropWhile f l' else l
  | [] => []
  end.

Definition trim (l : list ascii) : list ascii :=
  rev (dropWhile isWhiteSpace (rev (dropWhile isWhiteSpace l))).

Definition isChar (c : ascii) (a b : string) : bool :=
  match a, b with
  | String x EmptyString, String y EmptyString =>
      Ascii.eqb c x || Ascii.eqb c y
  | _, _ => false
  end.

(** ExponentPart: [e] or [E], an optional sign, decimal digits. *)
Definition exponentPart (l : list ascii) : option Z :=
  match l with
  | c :: r =>
      if isChar c "e" "E" then
        match r with
        | s :: r' =>
            if isChar s "+" "+" then digits 10 r'
            else if isChar s "-" "-" then option_map Z.opp (digits 10 r')
            else digits 10 r
        | [] => None
        end
      else None
  | [] => None
  end.

(** StrUnsignedDecimalLiteral *)
Definition unsignedDecimal (l : list ascii) : JSNumber :=
  if String.eqb (string_of_list_ascii l) "Infinity" then PosInf else
  let (ip, r1) := spanDigits l in
  let (fp, r2) := match r1 with
                  | c :: r => if isChar c "." "." then spanDigits r
                              else ([], r1)
                  | [] => ([], [])
                  end in
  match digits 10 (ip ++ fp)%list with
  | None => NaN
  | Some m =>
      let shift := Z.of_nat (List.length fp) in
      match r2 with
      | [] => Fin (JSNum.scale10 m (- shift))
      | _ => match exponentPart r2 with
             | Some e => Fin (JSNum.scale10 m (e - shift))
             | None => NaN
             end
      end
  end.

(** StrDecimalLiteral: an optional sign before the unsigned literal. *)
Definition decimal (l : list ascii) : JSNumber :=
  match l with
  | c :: r =>
      if isChar c "+" "+" then unsignedDecimal r
      else if isChar c "-" "-" then JSNum.neg (unsignedDecimal r)
      else unsignedDecimal l
  | [] => NaN
  end.

(** NonDecimalIntegerLiteral: [0b], [0o] or [0x] and digits of the radix. *)
Definition nonDecimal (l : list ascii) : option (option Z) :=
  match l with
  | z :: p :: r =>
      if isChar z "0" "0" then
        if isChar p "x" "X" then Some (digits 16 r)
        else if isChar p "o" "O" then Some (digits 8 r)
        else if isChar p "b" "B" then Some (digits 2 r)
        else None
      else None
  | _ => None
  end.

Definition StringToNumber (s : string) : JSNumber :=
  match trim (list_ascii_of_string s) with
  | [] => JSNum.ofZ 0
  | l => match nonDecimal l with
         | Some (Some v) => JSNum.ofZ v
         | Some None => NaN
         | None => decimal l
         end
  end.

End StringToNumber.

(** [Number(s)] *)
Definition Number (s : string) : JSNumber := StringToNumber.StringToNumber s.

(** [parseInt(s, 10)]: leading white space is skipped, then an optional
    sign and the longest run of decimal digits are read; NaN without a
    digit. *)
Definition parseInt10 (s : string) : JSNumber :=
  let l := StringToNumber.dropWhile StringToNumber.isWhiteSpace
             (list_ascii_of_string s) in
  let '(sign, r) :=
    match l with
    | c :: r' =>
        if StringToNumber.isChar c "+" "+" then (1, r')
        else if StringToNumber.isChar c "-" "-" then (-1, r')
        else (1, l)
    | [] => (1, [])
    end in
  match StringToNumber.digits 10 (fst (StringToNumber.spanDigits r)) with
  | Some v => JSNum.ofZ (sign * v)
  | None => NaN
  end.

(* ------------------------------------------------------------------ *)
(** ** Time values (ECMAScript, Date objects) *)

Module Time.

Definition msPerSecond : Z := 1000.
Definition msPerMinute : Z := 60000.
Definition msPerHour : Z := 3600000.
Definition msPerDay : Z := 86400000.
(** Largest magnitude of a time value. *)
Definition maxTime : Z := 8640000000000000.

Definition Day (t : Z) : Z := t / msPerDay.
Definition TimeWithinDay (t : Z) : Z := t mod msPerDay.

Definition DayFromYear (y : Z) : Z :=
  365 * (y - 1970) + (y - 1969) / 4 - (y - 1901) / 100 + (y - 1601) / 400.

Definition isLeapYear (y : Z) : bool :=
  (y mod 4 =? 0) && (negb (y mod 100 =? 0) || (y mod 400 =? 0)).

(** 1 in a leap year, 0 otherwise. *)
Definition InLeapYear (y : Z) : Z := if isLeapYear y then 1 else 0.

(** The year of a day number: the largest [y] with
    [DayFromYear y <= d], found from an estimate that is off by at most
    one (see [YearFromDay_spec]). *)
Definition YearFromDay (d : Z) : Z :=
  let e := 1970 + (400 * d) / 146097 in
  if DayFromYear (e + 1) <=? d then e + 1
  else if DayFromYear e <=? d then e
  else e - 1.

Definition YearFromTime (t : Z) : Z := YearFromDay (Day t).

Definition DayWithinYear (t : Z) : Z :=
  Day t - DayFromYear (YearFromTime t).

(** Month (0 to 11) of the day [d] within a year, [l] being 1 in a leap
    year. *)
Definition monthOfDay (d l : Z) : Z :=
  if d <? 31 then 0
  else if d <? 59 + l then 1
  else if d <? 90 + l then 2
  else if d <? 120 + l then 3
  else if d <? 151 + l then 4
  else if d <? 181 + l then 5
  else if d <? 212 + l then 6
  else if d <? 243 + l then 7
  else if d <? 273 + l then 8
  else if d <? 304 + l then 9
  else if d <? 334 + l then 10
  else 11.

(** Day within the year on which month [m] (0 to 11) starts. *)
Definition monthStart (m l : Z) : Z :=
  if m =? 0 then 0
  else if m =? 1 then 31
  else if m =? 2 then 59 + l
  else if m =? 3 then 90 + l
  else if m =? 4 then 120 + l
  else if m =? 5 then 151 + l
  else if m =? 6 then 181 + l
  else if m =? 7 then 212 + l
  else if m =? 8 then 243 + l
  else if m =? 9 then 273 + l
  else if m =? 10 then 304 + l
  else 334 + l.

Definition MonthFromTime (t : Z) : Z :=
  monthOfDay (DayWithinYear t) (InLeapYear (YearFromTime t)).

Definition DateFromTime (t : Z) : Z :=
  let l := InLeapYear (YearFromTime t) in
  DayWithinYear t - monthStart (MonthFromTime t) l + 1.

Definition HourFromTime (t : Z) : Z := (t / msPerHour) mod 24.
Definition MinFromTime (t : Z) : Z := (t / msPerMinute) mod 60.

(** [MakeTime]: NaN unless all four arguments are finite. *)
Definition MakeTime (hour min sec ms : JSNumber) : option Z :=
  match JSNum.finiteInteger hour, JSNum.finiteInteger min,
        JSNum.finiteInteger sec, JSNum.finiteInteger ms with
  | Some h, Some m, Some s, Some milli =>
      Some (h * msPerHour + m * msPerMinute + s * msPerSecond + milli)
  | _, _, _, _ => None
  end.

(** [MakeDay]: the day number of the first of month [m mod 12] in year
    [y + floor(m / 12)], moved by [dt - 1] days.  (The clause returning
    NaN for a year without a finite time value is left to [TimeClip],
    which rejects every such result when month and day are small.) *)
Definition MakeDay (year month date : JSNumber) : option Z :=
  match JSNum.finiteInteger year, JSNum.finiteInteger month,
        JSNum.finiteInteger date with
  | Some y, Some m, Some dt =>
      let ym := y + m / 12 in
      let mn := m mod 12 in
      Some (DayFromYear ym + monthStart mn (InLeapYear ym) + dt - 1)
  | _, _, _ => None
  end.

Definition MakeDate (day time : option Z) : option Z :=
  match day, time with
  | Some d, Some t => Some (d * msPerDay + t)
  | _, _ => None
  end.

Definition TimeClip (time : option Z) : option Z :=
  match time with
  | Some t => if Z.abs t <=? maxTime then Some t else None
  | None => None
  end.

End Time.

(** A Date object: its time value, [None] for an Invalid Date. *)
Record Date : Type := mkDate { getTime : option Z }.

(** [t + n] on a time value that may be NaN. *)
Definition addMs (t : option Z) (n : Z) : option Z :=
  option_map (fun v => v + n) t.

(** The local time value [finalDate] that the Date constructor computes
    from its seven arguments; a year from 0 to 99 means 1900 + year. *)
Definition finalDateOf
    (year month date hours minutes seconds ms : JSNumber) : option Z :=
  let yr := match JSNum.finiteInteger year with
            | Some yi =>
                if (0 <=? yi) && (yi <=? 99) then JSNum.ofZ (1900 + yi)
                else year
            | None => year
            end in
  Time.MakeDate (Time.MakeDay yr month date)
    (Time.MakeTime hours minutes seconds ms).

(** [addLeadingZeros] of date-fns. *)
Definition addLeadingZeros (number : Z) (targetLength : nat) : string :=
  let sign := if number <? 0 then "-" else "" in
  let output := NilZero.string_of_uint (N.to_uint (Z.abs_N number)) in
  let pad := string_of_list_ascii
               (repeat "0"%char (targetLength - String.length output)) in
  sign ++ pad ++ output.

(** The [y] formatter of date-fns: year 0 and the years before it are
    rendered as 1, 2, ... (years BC). *)
Definition formatYear (signedYear : Z) : string :=
  let year := if 0 <? signedYear then signedYear else 1 - signedYear in
  addLeadingZeros year 4.

(** The fields of a local time value rendered as yyyyMMddHHmm. *)
Definition formatFields (t : Z) : string :=
  formatYear (Time.YearFromTime t)
  ++ addLeadingZeros (Time.MonthFromTime t + 1) 2
  ++ addLeadingZeros (Time.DateFromTime t) 2
  ++ addLeadingZeros (Time.HourFromTime t) 2
  ++ addLeadingZeros (Time.MinFromTime t) 2.

Section Host.

(** Offset of the host's local time from UTC, in milliseconds. *)
Variable LocalTZA : Z.

Definition UTC (t : option Z) : option Z := addMs t (- LocalTZA).
Definition LocalTime (t : Z) : Z := t + LocalTZA.

(** [new Date(year, month, date, hours, minutes, seconds, ms)]: the
    arguments are local time. *)
Definition Date_of_components
    (year month date hours minutes seconds ms : JSNumber) : Date :=
  let finalDate :=
    finalDateOf year month date hours minutes seconds ms in
  mkDate (Time.TimeClip (UTC finalDate)).

(** [new Date(value)] for a number. *)
Definition Date_of_value (tv : option Z) : Date :=
  mkDate (Time.TimeClip tv).

(** [utcToZonedTime(new Date(now), 'UTC')] of date-fns-tz: the Date whose
    local fields are the UTC fields of [now]. *)
Definition utcToZonedTime_UTC (now : Z) : Date :=
  mkDate (Time.TimeClip (UTC (Some now))).

(** The local fields of a valid time value rendered as yyyyMMddHHmm. *)
Definition formatMinute (tv : Z) : string := formatFields (LocalTime tv).

(** [format(date, 'yyyyMMddHHmm')] of date-fns: throws a RangeError on an
    Invalid Date. *)
Definition format_yyyyMMddHHmm (tv : option Z) : Result string :=
  match getTime (Date_of_value tv) with
  | Some t => Ok (formatMinute t)
  | None => Throw (Error "Invalid time value")
  end.

(* ---------------------------------------------------------------- *)
(** ** The route *)

(** Lines 33-44. *)
Definition convertTimestampToDate (timestamp : string) : Date :=
  let convertedDate :=
    Date_of_components
      (Number (JSString.slice timestamp 0 4))
      (JSNum.sub (Number (JSString.slice timestamp 4 6)) (JSNum.ofZ 1))
      (Number (JSString.slice timestamp 6 8))
      (Number (JSString.slice timestamp 8 10))
      (Number (JSString.slice timestamp 10 12))
      (Number (JSString.slice timestamp 12 14))
      (Number (JSString.slice timestamp 14 17)) in
  convertedDate.

Definition parseErrorMessage : string :=
  "Cannot parse image directory name. Check that the directory name is correct date format.".

(** Lines 71-88 of [getImageAndInference]: the query window
    [(startTime, endTime)] of a directory name, [now] being the time
    value that [new Date()] reads from the clock. *)
Definition resolveWindow (outputSubDir : string) (now : Z)
  : Result (string * string) :=
  try_catch
    (let startDate := convertTimestampToDate outputSubDir in
     startTime <- format_yyyyMMddHHmm (getTime startDate) ;;
     let tenHoursLaterStartDate :=
       Date_of_value (addMs (getTime startDate) (10 * 60 * 60 * 1000)) in
     tenHoursLaterTimestamp <-
       format_yyyyMMddHHmm (getTime tenHoursLaterStartDate) ;;
     let currentDate := utcToZonedTime_UTC now in
     currentTimestamp <- format_yyyyMMddHHmm (getTime currentDate) ;;
     let endTime :=
       if JSString.lt tenHoursLaterTimestamp currentTimestamp
       then tenHoursLaterTimestamp else currentTimestamp in
     Ok (startTime, endTime))
    (fun err => Throw (Error parseErrorMessage)).

(* ---------------------------------------------------------------- *)
(** ** The remote service and the decoder *)

(** An entry of [imageData.data.images]. *)
Record Image : Type := mkImage {
  name : string;
  contents : string
}.

(** [resInference.data[k].inference_result.Inferences[j]]; [O] is
    [None] when the field is absent. *)
Record Inference : Type := mkInference { O : option string }.
Record InferenceResult : Type := mkInferenceResult {
  Inferences : list Inference
}.
Record InferenceEntry : Type := mkEntry {
  inference_result : InferenceResult
}.

(** What the route reads of the value [getInferenceResults] resolves
    to: [status], [response.data] and [data]. *)
Record InferenceResponse : Type := mkResponse {
  status : Z;
  response_data : string;
  data : list InferenceEntry
}.

(** The configuration and the client of consoleaccesslibrary.
    [getConsoleSettings] is the function of [@/config/config], which may
    throw; [createInstance] stands for lines 60-66 (building the Config
    and the Client).  The two requests may reject; a listing without an
    [images] array counts as one that throws, reading it being a
    TypeError.  [getInferenceResults] takes the number of the loop
    iteration that issues the request first, so that the service may
    answer two requests for one timestamp differently; its [filter]
    argument is always [undefined] and is left out. *)
Record Console : Type := mkConsole {
  getConsoleSettings : Result unit;
  createInstance : Result unit;
  getImages :
    string -> string -> JSNumber -> Z -> string -> string -> string ->
    Result (list Image);
  getInferenceResults :
    nat -> string -> Z -> Z -> string -> Result InferenceResponse
}.

(** [Buffer.from(_, 'base64')], [deserializeObjectDetection] of
    [@/utils/ObjectDetection/deserialize] and [JSON.stringify], which
    the route only calls. *)
Record Decoder : Type := mkDecoder {
  Detections : Type;
  Buffer_from_base64 : string -> list Byte.byte;
  deserializeObjectDetection : list Byte.byte -> Result Detections;
  JSON_stringify : Detections -> string
}.

Record Output : Type := mkOutput {
  image : string;
  inferenceData : string;
  timestamp : string
}.

Definition wrongSettingMessage : string :=
  "Wrong setting. Check the settings.".
Definition noInferenceMessage : string := "Cannot get inference results.".

(** Lines 128-130: the payload
    [resInference.data[0].inference_result.Inferences[0].O] of a
    response, or the error thrown instead.  Reading [.O] of a missing
    [Inferences[0]] is a TypeError of the runtime. *)
Definition inferencePayload (resInference : InferenceResponse)
  : Result string :=
  match data resInference with
  | [] => Throw (Error noInferenceMessage)
  | entry :: _ =>
      match Inferences (inference_result entry) with
      | [] => Throw (Error
                "Cannot read properties of undefined (reading 'O')")
      | inference :: _ =>
          match O inference with
          | Some payload =>
              if JSString.truthy payload then Ok payload
              else Throw (Error noInferenceMessage)
          | None => Throw (Error noInferenceMessage)
          end
      end
  end.

(** Lines 132-140: decoding a payload into the output record. *)
Definition assembleOutput (d : Decoder) (base64Img timestamp payload : string)
  : Result Output :=
  try_catch
    (let decodedData := Buffer_from_base64 d payload in
     deserializedData <- deserializeObjectDetection d decodedData ;;
     let inferenceData := JSON_stringify d deserializedData in
     Ok (mkOutput base64Img inferenceData timestamp))
    (fun err => Throw (Error (message err))).

(** Lines 107-141: the loop, from iteration [i] on, over the images that
    are left; [outputList] is the list pushed to so far. *)
Fixpoint processImages (c : Console) (d : Decoder) (deviceId : string)
    (i : nat) (images : list Image) (outputList : list Output)
  : Result (list Output) :=
  match images with
  | [] => Ok outputList
  | inputTensor :: rest =>
      let timestamp := JSString.replace (name inputTensor) ".jpg" "" in
      let base64Img := "data:image/jpg;base64," ++ contents inputTensor in
      let NumberOfInferenceresults := 1 in
      let raw := 1 in
      resInference <- getInferenceResults c i deviceId
                        NumberOfInferenceresults raw timestamp ;;
      if negb (status resInference =? 200)
      then Throw (Error (response_data resInference))
      else
        payload <- inferencePayload resInference ;;
        output <- assembleOutput d base64Img timestamp payload ;;
        processImages c d deviceId (S i) rest (outputList ++ [output])%list
  end.

(** Lines 56-143. *)
Definition getImageAndInference (c : Console) (d : Decoder) (now : Z)
    (deviceId outputSubDir : string) (numberOfImages : JSNumber)
  : Result (list Output) :=
  consoleSettings <- getConsoleSettings c ;;
  client <- try_catch (createInstance c)
              (fun err => Throw (Error wrongSettingMessage)) ;;
  ' (startTime, endTime) <- resolveWindow outputSubDir now ;;
  let skip := 0 in
  let orderBy := "DESC" in
  images <- getImages c deviceId outputSubDir numberOfImages skip orderBy
              startTime endTime ;;
  processImages c d deviceId 0 images [].

(* ---------------------------------------------------------------- *)
(** ** The request handler *)

(** A value of [req.query]: a string, or an array of strings when the
    parameter is repeated. *)
Inductive QueryValue : Type :=
| QString (s : string)
| QArray (l : list string).

Definition queryTruthy (q : option QueryValue) : bool :=
  match q with
  | None => false
  | Some (QString s) => JSString.truthy s
  | Some (QArray _) => true
  end.

Definition queryToString (q : QueryValue) : string :=
  match q with
  | QString s => s
  | QArray l => String.concat "," l
  end.

Record Request : Type := mkRequest {
  method : option string;
  query_deviceId : option QueryValue;
  query_imagePath : option QueryValue;
  query_numberOfImages : option QueryValue
}.

Inductive Body : Type :=
| MessageBody (msg : string)
| OutputBody (outputs : list Output).

Record Response : Type := mkHttpResponse {
  statusCode : Z;
  json : Body
}.

Definition withDefault {A} (q : option QueryValue)
    (f : QueryValue -> A) (dflt : A) : A :=
  match q with
  | Some v => if queryTruthy q then f v else dflt
  | None => dflt
  end.

(** Lines 156-181. *)
Definition handler (c : Console) (d : Decoder) (now : Z) (req : Request)
  : Response :=
  if negb (match method req with
           | Some m => String.eqb m "GET"
           | None => false
           end)
  then mkHttpResponse 405
         (MessageBody "The API server only accepts GET requests.")
  else if negb (queryTruthy (query_deviceId req))
  then mkHttpResponse 400 (MessageBody "Device ID is not specified.")
  else
    let deviceId := withDefault (query_deviceId req) queryToString "" in
    let outputSubDir := withDefault (query_imagePath req) queryToString "" in
    let numberOfImages :=
      withDefault (query_numberOfImages req)
        (fun v => parseInt10 (queryToString v)) (JSNum.ofZ 5) in
    match getImageAndInference c d now deviceId outputSubDir numberOfImages
    with
    | Ok result => mkHttpResponse 200 (OutputBody result)
    | Throw err =>
        match response err with
        | Some remoteMessage => mkHttpResponse 500 (MessageBody remoteMessage)
        | None => mkHttpResponse 500 (MessageBody (message err))
        end
    end.

End Host.

(* ------------------------------------------------------------------ *)
(** ** Definitions used in the statements *)

(** How an output record is made from the image it belongs to. *)
Definition recordOf (img : Image) (out : Output) : Prop :=
  timestamp out = JSString.replace (name img) ".jpg" ""
  /\ (forall stem,
        name img = stem ++ ".jpg" ->
        (forall a b, stem <> a ++ ".jpg" ++ b) ->
        timestamp out = stem)
  /\ image out = "data:image/jpg;base64," ++ contents img.

(** *** A scenario to run the route on *)

Module Scenario.

(** A stand-in for the decoder: the payload text itself. *)
Definition decoder : Decoder :=
  {| Detections := string;
     Buffer_from_base64 := list_byte_of_string;
     deserializeObjectDetection :=
       fun bytes => Ok (string_of_list_byte bytes);
     JSON_stringify := fun detections => detections |}.

Definition first : Image := mkImage "20230126052344873.jpg" "AAAA".
Definition second : Image := mkImage "20230126053344873.jpg" "BBBB".

Definition found (payload : string) : InferenceResponse :=
  mkResponse 200 ""
    [mkEntry (mkInferenceResult [mkInference (Some payload)])].

(** A service that lists [images] and answers the lookup of iteration
    [i] with the [i]-th of [answers]. *)
Definition console (images : list Image)
    (answers : list InferenceResponse) : Console :=
  {| getConsoleSettings := Ok tt;
     createInstance := Ok tt;
     getImages := fun _ _ _ _ _ _ _ => Ok images;
     getInferenceResults :=
       fun i _ _ _ _ => Ok (nth i answers (mkResponse 404 "Not Found" [])) |}.

(** 26 January 2023, 08:00 UTC. *)
Definition now : Z := 1674720000000.
Definition directory : string := "20230126050000000".

End Scenario.

(** The local time value of integer fields, as [finalDateOf] computes
    it. *)
Definition finalDateOfIntegers (y m dt h mi s ms : Z) : Z :=
  let yr := if (0 <=? y) && (y <=? 99) then 1900 + y else y in
  let ym := yr + m / 12 in
  (Time.DayFromYear ym + Time.monthStart (m mod 12) (Time.InLeapYear ym)
   + dt - 1) * Time.msPerDay
  + (h * Time.msPerHour + mi * Time.msPerMinute + s * Time.msPerSecond + ms).

(** The local time value that the seven slices of a directory name
    denote (the arguments of lines 35-41). *)
Definition timestampFinalDate (timestamp : string) : option Z :=
  finalDateOf
    (Number (JSString.slice timestamp 0 4))
    (JSNum.sub (Number (JSString.slice timestamp 4 6)) (JSNum.ofZ 1))
    (Number (JSString.slice timestamp 6 8))
    (Number (JSString.slice timestamp 8 10))
    (Number (JSString.slice timestamp 10 12))
    (Number (JSString.slice timestamp 12 14))
    (Number (JSString.slice timestamp 14 17)).

(** The date of a day number as one integer, yyyymmdd. *)
Definition dateKey (d : Z) : Z :=
  let y := Time.YearFromDay d in
  let l := Time.InLeapYear y in
  let w := d - Time.DayFromYear y in
  y * 10000 + (Time.monthOfDay w l + 1) * 100
  + (w - Time.monthStart (Time.monthOfDay w l) l + 1).

(** The fields that yyyyMMddHHmm renders, as one integer. *)
Definition minuteKey (t : Z) : Z :=
  Time.YearFromTime t * 100000000 + (Time.MonthFromTime t + 1) * 1000000
  + Time.DateFromTime t * 10000 + Time.HourFromTime t * 100
  + Time.MinFromTime t.

(** The character of a decimal digit. *)
Definition digitChar (d : Z) : ascii := ascii_of_N (Z.to_N (48 + d)).

(** The [k] decimal digits of [n], most significant first. *)
Fixpoint fixedDigits (k : nat) (n : Z) : string :=
  match k with
  | 0%nat => EmptyString
  | S k' => String (digitChar (n / 10 ^ Z.of_nat k'))
              (fixedDigits k' (n mod 10 ^ Z.of_nat k'))
  end.

(** [P] holds of the [fuel] integers from [z] on. *)
Fixpoint checkFrom (P : Z -> bool) (fuel : nat) (z : Z) : bool :=
  match fuel with
  | 0%nat => true
  | S f => P z && checkFrom P f (z + 1)
  end.

(** The number that a run of decimal digits writes. *)
Definition decimalValue (l : list ascii) : Z :=
  fold_left (fun acc c => 10 * acc + (JSString.code c - 48)) l 0.

(** The digits from position [b] up to position [e] of a digit list. *)
Definition field (ds : list ascii) (b e : nat) : Z :=
  decimalValue (firstn (e - b) (skipn b ds)).

(** A string of decimal digits only. *)
Definition allDigits (ds : list ascii) : Prop :=
  Forall (fun c => StringToNumber.isDecimalDigit c = true) ds.




(** The payload of a response is found. *)
Definition hasPayload (resInference : InferenceResponse) (payload : string)
  : Prop :=
  exists entry entries inference inferences,
    data resInference = entry :: entries
    /\ Inferences (inference_result entry) = inference :: inferences
    /\ O inference = Some payload
    /\ payload <> "".

(** The image at position [k] of the listing is looked up, found and
    decoded. *)
Definition imageDecodes (c : Console) (d : Decoder) (deviceId : string)
    (k : nat) (img : Image) : Prop :=
  exists resInference payload detections,
    getInferenceResults c k deviceId 1 1
      (JSString.replace (name img) ".jpg" "") = Ok resInference
    /\ status resInference = 200
    /\ hasPayload resInference payload
    /\ deserializeObjectDetection d (Buffer_from_base64 d payload)
       = Ok detections.

(* ================================================================== *)
(** * Properties *)

(** ** The order on strings *)

Lemma string_compare_refl (s : string) : String.compare s s = Eq.
Proof.
  induction s as [|c s IH]; [reflexivity|].
  cbn. unfold Ascii.compare. now rewrite N.compare_refl.
Qed.

Lemma JSString_le_refl (s : string) : JSString.le s s = true.
Proof. unfold JSString.le, String.leb. now rewrite string_compare_refl. Qed.

Lemma JSString_lt_le (a b : string) :
  JSString.lt a b = true -> JSString.le a b = true.
Proof.
  unfold JSString.lt, JSString.le, String.ltb, String.leb.
  now destruct (String.compare a b).
Qed.

Lemma JSString_not_lt_le (a b : string) :
  JSString.lt a b = false -> JSString.le b a = true.
Proof.
  unfold JSString.lt, JSString.le, String.ltb, String.leb.
  rewrite (String.compare_antisym a b).
  now destruct (String.compare b a).
Qed.

Lemma JSString_lt_irrefl (s : string) : JSString.lt s s = false.
Proof. unfold JSString.lt, String.ltb. now rewrite string_compare_refl. Qed.

(** The string picked by [a < b ? a : b] is below both. *)
Lemma pick_smaller_le (a b : string) :
  let e := if JSString.lt a b then a else b in
  JSString.le e a = true /\ JSString.le e b = true /\ (e = a \/ e = b).
Proof.
  cbv zeta. destruct (JSString.lt a b) eqn:Hlt.
  - split; [apply JSString_le_refl|]. split; [now apply JSString_lt_le|now left].
  - split; [now apply JSString_not_lt_le|].
    split; [apply JSString_le_refl|now right].
Qed.

(** ** The window *)

Section WindowFacts.

Variable LocalTZA : Z.

Lemma format_Some (t : Z) :
  Z.abs t <= Time.maxTime ->
  format_yyyyMMddHHmm LocalTZA (Some t) = Ok (formatMinute LocalTZA t).
Proof.
  intros H. unfold format_yyyyMMddHHmm, Date_of_value, Time.TimeClip, getTime.
  destruct (Z.leb_spec (Z.abs t) Time.maxTime); [reflexivity|lia].
Qed.

Lemma format_Ok_inv (tv : option Z) (s : string) :
  format_yyyyMMddHHmm LocalTZA tv = Ok s ->
  exists t, tv = Some t /\ Z.abs t <= Time.maxTime
            /\ s = formatMinute LocalTZA t.
Proof.
  unfold format_yyyyMMddHHmm, Date_of_value, Time.TimeClip, getTime.
  destruct tv as [t|]; [|discriminate].
  destruct (Z.leb_spec (Z.abs t) Time.maxTime); [|discriminate].
  intros [= <-]. now exists t.
Qed.

Lemma format_None_inv (tv : option Z) (e : JSError) :
  format_yyyyMMddHHmm LocalTZA tv = Throw e ->
  Time.TimeClip tv = None.
Proof.
  unfold format_yyyyMMddHHmm, Date_of_value, getTime.
  now destruct (Time.TimeClip tv).
Qed.

Lemma convertTimestampToDate_clipped (T : string) (t : Z) :
  getTime (convertTimestampToDate LocalTZA T) = Some t ->
  Z.abs t <= Time.maxTime.
Proof.
  unfold convertTimestampToDate, Date_of_components, getTime, Time.TimeClip.
  destruct (UTC _ _) as [u|]; [|discriminate].
  destruct (Z.leb_spec (Z.abs u) Time.maxTime); [|discriminate].
  now intros [= <-].
Qed.

(** The window step returns exactly when the three instants are valid,
    and then returns the two formatted bounds. *)
Lemma resolveWindow_Ok_iff (T : string) (now : Z) (w : string * string) :
  resolveWindow LocalTZA T now = Ok w <->
  exists t,
    getTime (convertTimestampToDate LocalTZA T) = Some t
    /\ Z.abs (t + 36000000) <= Time.maxTime
    /\ Z.abs (now - LocalTZA) <= Time.maxTime
    /\ w = (formatMinute LocalTZA t,
            if JSString.lt (formatMinute LocalTZA (t + 36000000))
                           (formatMinute LocalTZA (now - LocalTZA))
            then formatMinute LocalTZA (t + 36000000)
            else formatMinute LocalTZA (now - LocalTZA)).
Proof.
  unfold resolveWindow, try_catch, bind. split.
  - destruct (format_yyyyMMddHHmm LocalTZA
                (getTime (convertTimestampToDate LocalTZA T)))
      as [s|] eqn:Hs; [|discriminate].
    apply format_Ok_inv in Hs. destruct Hs as (t & Ht & _ & ->).
    rewrite Ht. cbn [addMs option_map Date_of_value getTime].
    change (10 * 60 * 60 * 1000) with 36000000.
    destruct (format_yyyyMMddHHmm LocalTZA
                (Time.TimeClip (Some (t + 36000000))))
      as [s10|] eqn:H10; [|discriminate].
    apply format_Ok_inv in H10. destruct H10 as (t10 & Hc10 & Ha10 & ->).
    unfold utcToZonedTime_UTC, UTC, addMs, option_map, getTime.
    replace (now + - LocalTZA) with (now - LocalTZA) by lia.
    destruct (format_yyyyMMddHHmm LocalTZA
                (Time.TimeClip (Some (now - LocalTZA))))
      as [sc|] eqn:Hc; [|discriminate].
    apply format_Ok_inv in Hc. destruct Hc as (tc & Hcc & Hac & ->).
    unfold Time.TimeClip in Hc10, Hcc.
    destruct (Z.leb_spec (Z.abs (t + 36000000)) Time.maxTime);
      [|discriminate].
    destruct (Z.leb_spec (Z.abs (now - LocalTZA)) Time.maxTime);
      [|discriminate].
    injection Hc10 as <-. injection Hcc as <-.
    intros [= <-]. exists t. repeat split; assumption.
  - intros (t & Ht & H10 & Hc & ->).
    rewrite Ht. rewrite (format_Some t)
      by (eapply convertTimestampToDate_clipped; eassumption).
    cbn [addMs option_map Date_of_value getTime].
    change (10 * 60 * 60 * 1000) with 36000000.
    assert (E10 : Time.TimeClip (Some (t + 36000000))
                  = Some (t + 36000000)).
    { unfold Time.TimeClip.
      destruct (Z.leb_spec (Z.abs (t + 36000000)) Time.maxTime);
        [reflexivity|lia]. }
    rewrite E10, (format_Some _ H10).
    unfold utcToZonedTime_UTC, UTC, addMs, option_map, getTime.
    replace (now + - LocalTZA) with (now - LocalTZA) by lia.
    assert (Ec : Time.TimeClip (Some (now - LocalTZA))
                 = Some (now - LocalTZA)).
    { unfold Time.TimeClip.
      destruct (Z.leb_spec (Z.abs (now - LocalTZA)) Time.maxTime);
        [reflexivity|lia]. }
    rewrite Ec, (format_Some _ Hc). reflexivity.
Qed.

(** Whatever the window step throws, it throws the directory-name
    error. *)
Lemma resolveWindow_Throw (T : string) (now : Z) (e : JSError) :
  resolveWindow LocalTZA T now = Throw e -> e = Error parseErrorMessage.
Proof.
  unfold resolveWindow, try_catch.
  match goal with |- match ?b with _ => _ end = _ -> _ => destruct b end.
  - discriminate.
  - now intros [= <-].
Qed.

End WindowFacts.

(** C1.  When the directory name parses to a time value [t], the window
    step returns as soon as the instant ten hours later and the current
    instant are within the range of Date, and the [endTime] of every
    window it returns is, in the order of strings, at most the formatted
    current instant and at most the formatted instant ten hours after [t],
    and is one of the two. *)
Theorem resolveWindow_endTime_is_minimum
    (LocalTZA : Z) (T : string) (now t : Z)
    (Hparse : getTime (convertTimestampToDate LocalTZA T) = Some t) :
  (Z.abs (t + 10 * 60 * 60 * 1000) <= Time.maxTime ->
   Z.abs (now - LocalTZA) <= Time.maxTime ->
   exists w, resolveWindow LocalTZA T now = Ok w)
  /\
  (forall startTime endTime,
     resolveWindow LocalTZA T now = Ok (startTime, endTime) ->
     exists tenHoursLaterTimestamp currentTimestamp,
       format_yyyyMMddHHmm LocalTZA (addMs (Some t) (10 * 60 * 60 * 1000))
         = Ok tenHoursLaterTimestamp
       /\ format_yyyyMMddHHmm LocalTZA
            (getTime (utcToZonedTime_UTC LocalTZA now))
          = Ok currentTimestamp
       /\ JSString.le endTime currentTimestamp = true
       /\ JSString.le endTime tenHoursLaterTimestamp = true
       /\ (endTime = tenHoursLaterTimestamp
           \/ endTime = currentTimestamp)).
Proof.
  change (10 * 60 * 60 * 1000) with 36000000. split.
  - intros H10 Hc. eexists. apply resolveWindow_Ok_iff.
    exists t. repeat split; eassumption.
  - intros s e Hw. apply resolveWindow_Ok_iff in Hw.
    destruct Hw as (t' & Ht' & H10 & Hc & Hw).
    rewrite Hparse in Ht'. injection Ht' as <-.
    injection Hw as -> ->.
    exists (formatMinute LocalTZA (t + 36000000)),
           (formatMinute LocalTZA (now - LocalTZA)).
    split; [apply format_Some; assumption|].
    split.
    { unfold utcToZonedTime_UTC, UTC, addMs, option_map, getTime,
        format_yyyyMMddHHmm, Date_of_value, Time.TimeClip.
      replace (now + - LocalTZA) with (now - LocalTZA) by lia.
      destruct (Z.leb_spec (Z.abs (now - LocalTZA)) Time.maxTime);
        [|lia].
      cbn. destruct (Z.leb_spec (Z.abs (now - LocalTZA)) Time.maxTime);
        [reflexivity|lia]. }
    pose proof (pick_smaller_le (formatMinute LocalTZA (t + 36000000))
                  (formatMinute LocalTZA (now - LocalTZA))) as P.
    cbv zeta in P. tauto.
Qed.

(** A run of C1: the directory of 26 January 2023, 05:00, read at 08:00
    the same day (UTC host). *)
Lemma resolveWindow_endTime_is_minimum_witness :
  (exists w, resolveWindow 0 "20230126050000000" 1674720000000 = Ok w)
  /\ resolveWindow 0 "20230126050000000" 1674720000000
     = Ok ("202301260500", "202301260800").
Proof.
  split; [|vm_compute; reflexivity].
  apply (proj1 (resolveWindow_endTime_is_minimum 0 "20230126050000000"
                  1674720000000 1674709200000 eq_refl));
    vm_compute; discriminate.
Defined.

(** ** The retrieval loop *)


(** What the route reaches once the client is built, the window resolved
    and the listing answered. *)
Lemma getImageAndInference_listing (LocalTZA : Z) (c : Console) (d : Decoder)
    (now : Z) (deviceId outputSubDir : string) (numberOfImages : JSNumber)
    (startTime endTime : string) (images : list Image) (u u' : unit) :
  getConsoleSettings c = Ok u' ->
  createInstance c = Ok u ->
  resolveWindow LocalTZA outputSubDir now = Ok (startTime, endTime) ->
  getImages c deviceId outputSubDir numberOfImages 0 "DESC"
    startTime endTime = Ok images ->
  getImageAndInference LocalTZA c d now deviceId outputSubDir numberOfImages
  = processImages c d deviceId 0 images [].
Proof.
  intros Hs Hc Hw Hi. unfold getImageAndInference.
  rewrite Hs, Hc, Hw. cbn. now rewrite Hi.
Qed.


(** C3.  With the settings read, the client built, the window resolved
    (a valid start timestamp) and an empty listing, the retrieval returns
    the empty list and throws nothing. *)
Theorem retrieval_of_empty_listing
    (LocalTZA : Z) (c : Console) (d : Decoder) (now : Z)
    (deviceId outputSubDir : string) (numberOfImages : JSNumber)
    (startTime endTime : string) (u u' : unit)
    (Hsettings : getConsoleSettings c = Ok u')
    (Hclient : createInstance c = Ok u)
    (Hwindow : resolveWindow LocalTZA outputSubDir now
               = Ok (startTime, endTime))
    (Hlisting : getImages c deviceId outputSubDir numberOfImages 0 "DESC"
                  startTime endTime = Ok []) :
  getImageAndInference LocalTZA c d now deviceId outputSubDir numberOfImages
  = Ok [].
Proof.
  erewrite getImageAndInference_listing by eassumption. reflexivity.
Qed.


(** An empty listing. *)
Lemma retrieval_of_empty_listing_witness :
  getImageAndInference 0 (Scenario.console [] []) Scenario.decoder
    Scenario.now "device" Scenario.directory (JSNum.ofZ 5) = Ok [].
Proof.
  apply (retrieval_of_empty_listing 0 (Scenario.console [] [])
           Scenario.decoder Scenario.now "device" Scenario.directory
           (JSNum.ofZ 5) "202301260500" "202301260800" tt tt).
  - reflexivity.
  - reflexivity.
  - vm_compute; reflexivity.
  - reflexivity.
Defined.



(** ** The output records *)

(** Removing the first ['.jpg'] of a name that ends in ['.jpg'] leaves
    the stem when no ['.jpg'] occurs in the stem itself. *)
Lemma replace_jpg_stem (stem : string) :
  (forall a b, stem <> a ++ ".jpg" ++ b) ->
  JSString.replace (stem ++ ".jpg") ".jpg" "" = stem.
Proof.
  induction stem as [|c stem IH]; intros Hfree; [reflexivity|].
  assert (Hp : prefix ".jpg" (String c stem ++ ".jpg") = false).
  { destruct (prefix ".jpg" (String c stem ++ ".jpg")) eqn:Hp;
      [exfalso|reflexivity].
    destruct stem as [|c1 [|c2 [|c3 s]]]; cbn in Hp;
      repeat match type of Hp with
             | (if ?b then _ else _) = true => destruct b; try discriminate
             end; subst.
    apply (Hfree "" s). reflexivity. }
  change (String c stem ++ ".jpg") with (String c (stem ++ ".jpg")) in *.
  cbn [JSString.replace]. rewrite Hp. f_equal. apply IH.
  intros a b ->. apply (Hfree (String c a) b). reflexivity.
Qed.

Lemma assembleOutput_Ok (d : Decoder) (base64Img ts payload : string)
    (out : Output) :
  assembleOutput d base64Img ts payload = Ok out ->
  image out = base64Img /\ timestamp out = ts.
Proof.
  unfold assembleOutput, try_catch, bind.
  destruct (deserializeObjectDetection d _); [|discriminate].
  intros [= <-]. split; reflexivity.
Qed.

Lemma processImages_records (c : Console) (d : Decoder) (deviceId : string)
    (images : list Image) :
  forall (i : nat) (acc outs : list Output),
    processImages c d deviceId i images acc = Ok outs ->
    exists news, outs = (acc ++ news)%list /\ Forall2 recordOf images news.
Proof.
  induction images as [|img images IH]; intros i acc outs.
  - cbn. intros [= <-]. exists []. split; [now rewrite app_nil_r|constructor].
  - cbn [processImages].
    destruct (getInferenceResults c i deviceId 1 1 _) as [res|e];
      [|discriminate].
    cbn [bind]. destruct (negb (status res =? 200)); [discriminate|].
    destruct (inferencePayload res) as [payload|e]; [|discriminate].
    cbn [bind].
    destruct (assembleOutput d _ _ payload) as [o|e] eqn:Ho; [|discriminate].
    cbn [bind]. intros H. apply IH in H. destruct H as (news & -> & HF).
    exists (o :: news). split; [now rewrite <- app_assoc|].
    constructor; [|exact HF].
    apply assembleOutput_Ok in Ho. destruct Ho as [Hi Ht].
    unfold recordOf. split; [exact Ht|]. split; [|exact Hi].
    intros stem Hn Hfree. rewrite Ht, Hn. now apply replace_jpg_stem.
Qed.

(** C4, amended.  The list the retrieval returns has one record per
    listed image, in the order of the listing; the [timestamp] of a record
    is the file name with its first ['.jpg'] removed, which is the stem of
    a name ending in ['.jpg'] whose stem holds no ['.jpg']; its [image] is
    the contents after ['data:image/jpg;base64,']. *)
Theorem output_records_follow_listing
    (LocalTZA : Z) (c : Console) (d : Decoder) (now : Z)
    (deviceId outputSubDir : string) (numberOfImages : JSNumber)
    (outputList : list Output)
    (Hreturn : getImageAndInference LocalTZA c d now deviceId outputSubDir
                 numberOfImages = Ok outputList) :
  exists startTime endTime images,
    resolveWindow LocalTZA outputSubDir now = Ok (startTime, endTime)
    /\ getImages c deviceId outputSubDir numberOfImages 0 "DESC"
         startTime endTime = Ok images
    /\ Forall2 recordOf images outputList.
Proof.
  unfold getImageAndInference, try_catch in Hreturn.
  destruct (getConsoleSettings c); [|discriminate]. cbn [bind] in Hreturn.
  destruct (createInstance c); [|discriminate]. cbn [bind] in Hreturn.
  destruct (resolveWindow LocalTZA outputSubDir now) as [[s e]|];
    [|discriminate].
  cbn [bind] in Hreturn.
  destruct (getImages c deviceId outputSubDir numberOfImages 0 "DESC" s e)
    as [images|] eqn:Hi; [|discriminate].
  cbn [bind] in Hreturn. apply processImages_records in Hreturn.
  destruct Hreturn as (news & -> & HF).
  exists s, e, images. auto.
Qed.

(** The scenario with two images: two records, in the order listed. *)
Lemma output_records_follow_listing_witness :
  getImageAndInference 0
    (Scenario.console [Scenario.first; Scenario.second]
       [Scenario.found "CgA="; Scenario.found "CgB="])
    Scenario.decoder Scenario.now "device" Scenario.directory (JSNum.ofZ 2)
  = Ok [mkOutput "data:image/jpg;base64,AAAA" "CgA=" "20230126052344873";
        mkOutput "data:image/jpg;base64,BBBB" "CgB=" "20230126053344873"]
  /\ exists startTime endTime images,
       resolveWindow 0 Scenario.directory Scenario.now
       = Ok (startTime, endTime)
       /\ getImages (Scenario.console [Scenario.first; Scenario.second]
                       [Scenario.found "CgA="; Scenario.found "CgB="])
            "device" Scenario.directory (JSNum.ofZ 2) 0 "DESC"
            startTime endTime = Ok images
       /\ Forall2 recordOf images
            [mkOutput "data:image/jpg;base64,AAAA" "CgA=" "20230126052344873";
             mkOutput "data:image/jpg;base64,BBBB" "CgB=" "20230126053344873"].
Proof.
  assert (E : getImageAndInference 0
    (Scenario.console [Scenario.first; Scenario.second]
       [Scenario.found "CgA="; Scenario.found "CgB="])
    Scenario.decoder Scenario.now "device" Scenario.directory (JSNum.ofZ 2)
  = Ok [mkOutput "data:image/jpg;base64,AAAA" "CgA=" "20230126052344873";
        mkOutput "data:image/jpg;base64,BBBB" "CgB=" "20230126053344873"])
    by (vm_compute; reflexivity).
  split; [exact E|].
  exact (output_records_follow_listing 0 _ _ _ _ _ _ _ E).
Defined.

(** C4 as stated fails on a name that holds ['.jpg'] before its
    extension: the stem of ['a.jpgb.jpg'] is ['a.jpgb'], the record's
    timestamp is ['ab.jpg']. *)
Lemma timestamp_is_not_always_the_stem :
  let img := mkImage "a.jpgb.jpg" "AAAA" in
  name img = "a.jpgb" ++ ".jpg"
  /\ getImageAndInference 0
       (Scenario.console [img] [Scenario.found "CgA="])
       Scenario.decoder Scenario.now "device" Scenario.directory
       (JSNum.ofZ 1)
     = Ok [mkOutput "data:image/jpg;base64,AAAA" "CgA=" "ab.jpg"]
  /\ "ab.jpg" <> "a.jpgb".
Proof.
  cbv zeta. split; [reflexivity|]. split; [vm_compute; reflexivity|].
  discriminate.
Qed.

(** ** The handler *)

(** A query parameter is falsy when it is absent or the empty string. *)
Lemma queryTruthy_false (q : option QueryValue) :
  queryTruthy q = false <-> q = None \/ q = Some (QString "").
Proof.
  split.
  - destruct q as [[[|ch s]|l]|]; cbn; try discriminate; auto.
  - now intros [-> | ->].
Qed.



(** ** Calendar arithmetic *)

Section Calendar.
Import Time.

Lemma DayFromYear_step (y : Z) :
  DayFromYear (y + 1) = DayFromYear y + 365 + InLeapYear y.
Proof.
  unfold DayFromYear, InLeapYear, isLeapYear.
  destruct (Z.eqb_spec (y mod 4) 0); destruct (Z.eqb_spec (y mod 100) 0);
    destruct (Z.eqb_spec (y mod 400) 0); cbn [andb orb negb];
    Z.to_euclidean_division_equations; lia.
Qed.

Lemma YearFromDay_spec (d : Z) :
  DayFromYear (YearFromDay d) <= d < DayFromYear (YearFromDay d + 1).
Proof.
  unfold YearFromDay.
  set (e := 1970 + 400 * d / 146097).
  assert (He : DayFromYear (e - 1) <= d < DayFromYear (e + 2)).
  { unfold DayFromYear, e. Z.to_euclidean_division_equations. lia. }
  destruct (Z.leb_spec (DayFromYear (e + 1)) d).
  - replace (e + 1 + 1) with (e + 2) by lia. lia.
  - destruct (Z.leb_spec (DayFromYear e) d).
    + lia.
    + replace (e - 1 + 1) with e by lia. lia.
Qed.

Lemma InLeapYear_cases (y : Z) : InLeapYear y = 0 \/ InLeapYear y = 1.
Proof. unfold InLeapYear. destruct (isLeapYear y); auto. Qed.

Lemma DayFromYear_mono (y1 y2 : Z) :
  y1 <= y2 -> DayFromYear y1 <= DayFromYear y2.
Proof.
  intros H. unfold DayFromYear. Z.to_euclidean_division_equations. lia.
Qed.

Lemma YearFromDay_mono (d1 d2 : Z) :
  d1 <= d2 -> YearFromDay d1 <= YearFromDay d2.
Proof.
  intros H.
  destruct (Z.le_gt_cases (YearFromDay d1) (YearFromDay d2)) as [|Hgt];
    [assumption|exfalso].
  pose proof (YearFromDay_spec d1) as [L1 _].
  pose proof (YearFromDay_spec d2) as [_ U2].
  pose proof (DayFromYear_mono (YearFromDay d2 + 1) (YearFromDay d1)).
  lia.
Qed.

Lemma DayWithinYear_range (d : Z) :
  0 <= d - DayFromYear (YearFromDay d) < 365 + InLeapYear (YearFromDay d).
Proof.
  pose proof (YearFromDay_spec d) as [L U].
  rewrite DayFromYear_step in U. lia.
Qed.

Ltac split_month :=
  unfold monthOfDay;
  repeat match goal with
         | |- context [?a <? ?b] => destruct (Z.ltb_spec a b)
         end;
  cbn [monthStart Z.eqb Pos.eqb].

Lemma monthOfDay_date (d l : Z) :
  l = 0 \/ l = 1 -> 0 <= d < 365 + l ->
  0 <= monthOfDay d l <= 11
  /\ 1 <= d - monthStart (monthOfDay d l) l + 1 <= 31.
Proof.
  intros Hl Hd. split_month; lia.
Qed.

Lemma monthOfDay_strict (d1 d2 l : Z) :
  l = 0 \/ l = 1 -> 0 <= d1 -> d1 < d2 -> d2 < 365 + l ->
  (monthOfDay d1 l + 1) * 100 + (d1 - monthStart (monthOfDay d1 l) l + 1)
  < (monthOfDay d2 l + 1) * 100 + (d2 - monthStart (monthOfDay d2 l) l + 1).
Proof.
  intros Hl H0 H12 H2.
  unfold monthOfDay at 1 2.
  repeat match goal with
         | |- context [d1 <? ?b] => destruct (Z.ltb_spec d1 b)
         end;
  cbn [monthStart Z.eqb Pos.eqb];
  split_month; lia.
Qed.

Lemma dateKey_range (d : Z) :
  YearFromDay d * 10000 + 101 <= dateKey d <= YearFromDay d * 10000 + 1231.
Proof.
  unfold dateKey. cbv zeta.
  pose proof (monthOfDay_date _ _ (InLeapYear_cases (YearFromDay d))
                (DayWithinYear_range d)).
  lia.
Qed.

Lemma dateKey_strict (d1 d2 : Z) : d1 < d2 -> dateKey d1 < dateKey d2.
Proof.
  intros H.
  pose proof (YearFromDay_mono d1 d2 ltac:(lia)) as Hy.
  destruct (Z.eq_dec (YearFromDay d1) (YearFromDay d2)) as [E|NE].
  - unfold dateKey. cbv zeta. rewrite E.
    pose proof (DayWithinYear_range d1) as R1.
    pose proof (DayWithinYear_range d2) as R2.
    rewrite E in R1.
    pose proof (monthOfDay_strict (d1 - DayFromYear (YearFromDay d2))
                  (d2 - DayFromYear (YearFromDay d2))
                  (InLeapYear (YearFromDay d2))
                  (InLeapYear_cases _) ltac:(lia) ltac:(lia) ltac:(lia)).
    lia.
  - pose proof (dateKey_range d1). pose proof (dateKey_range d2). lia.
Qed.

Lemma minuteKey_dateKey (t : Z) :
  minuteKey t
  = dateKey (t / 60000 / 1440) * 10000
    + (t / 60000 mod 1440 / 60) * 100 + t / 60000 mod 60.
Proof.
  unfold minuteKey, dateKey, DateFromTime, MonthFromTime,
    HourFromTime, MinFromTime, DayWithinYear, YearFromTime, Day,
    msPerDay, msPerHour, msPerMinute.
  cbv zeta.
  replace (t / 86400000) with (t / 60000 / 1440)
    by (rewrite Z.div_div by lia; reflexivity).
  replace (t / 3600000 mod 24) with (t / 60000 mod 1440 / 60)
    by (Z.to_euclidean_division_equations; lia).
  ring.
Qed.

Lemma minuteKey_eq (a b : Z) :
  a / 60000 = b / 60000 -> minuteKey a = minuteKey b.
Proof. intros H. now rewrite !minuteKey_dateKey, H. Qed.

Lemma minuteKey_strict (a b : Z) :
  a / 60000 < b / 60000 -> minuteKey a < minuteKey b.
Proof.
  intros H. rewrite !minuteKey_dateKey.
  set (ma := a / 60000) in *. set (mb := b / 60000) in *.
  destruct (Z.eq_dec (ma / 1440) (mb / 1440)) as [E|NE].
  - rewrite E. Z.to_euclidean_division_equations. lia.
  - assert (Hd : ma / 1440 < mb / 1440)
      by (Z.to_euclidean_division_equations; lia).
    apply dateKey_strict in Hd.
    Z.to_euclidean_division_equations. lia.
Qed.

Lemma minuteKey_compare (a b : Z) :
  (minuteKey a ?= minuteKey b) = (a / 60000 ?= b / 60000).
Proof.
  destruct (Z.compare_spec (a / 60000) (b / 60000)) as [E|L|G].
  - apply Z.compare_eq_iff. now apply minuteKey_eq.
  - apply Z.compare_lt_iff. now apply minuteKey_strict.
  - apply Z.compare_gt_iff. now apply minuteKey_strict.
Qed.

Lemma minuteKey_fields (t : Z) :
  1 <= MonthFromTime t + 1 <= 12 /\ 1 <= DateFromTime t <= 31
  /\ 0 <= HourFromTime t < 24 /\ 0 <= MinFromTime t < 60.
Proof.
  unfold MonthFromTime, DateFromTime, HourFromTime, MinFromTime,
    DayWithinYear, YearFromTime, MonthFromTime, DayWithinYear, YearFromTime.
  cbv zeta.
  pose proof (monthOfDay_date _ _ (InLeapYear_cases (YearFromDay (Day t)))
                (DayWithinYear_range (Day t))).
  pose proof (Z.mod_pos_bound (t / msPerHour) 24 ltac:(lia)).
  pose proof (Z.mod_pos_bound (t / msPerMinute) 60 ltac:(lia)).
  lia.
Qed.

Lemma digitChar_compare (x y : Z) :
  0 <= x <= 9 -> 0 <= y <= 9 ->
  Ascii.compare (digitChar x) (digitChar y) = (x ?= y).
Proof.
  intros Hx Hy. unfold Ascii.compare, digitChar.
  rewrite !N_ascii_embedding by lia.
  rewrite Z2N.inj_compare by lia.
  apply Z.add_compare_mono_l.
Qed.

Lemma fixedDigits_compare (k : nat) :
  forall x y : Z,
    0 <= x < 10 ^ Z.of_nat k -> 0 <= y < 10 ^ Z.of_nat k ->
    String.compare (fixedDigits k x) (fixedDigits k y) = (x ?= y).
Proof.
  induction k as [|k IH]; intros x y Hx Hy.
  - cbn in *. assert (x = 0) by lia. assert (y = 0) by lia. now subst.
  - cbn [fixedDigits String.compare].
    rewrite Nat2Z.inj_succ, Z.pow_succ_r in Hx, Hy by lia.
    set (p := 10 ^ Z.of_nat k) in *.
    assert (Hp : 0 < p) by (apply Z.pow_pos_nonneg; lia).
    assert (Hqx : 0 <= x / p <= 9).
    { split; [apply Z.div_pos; lia|].
      assert (x / p < 10) by (apply Z.div_lt_upper_bound; lia). lia. }
    assert (Hqy : 0 <= y / p <= 9).
    { split; [apply Z.div_pos; lia|].
      assert (y / p < 10) by (apply Z.div_lt_upper_bound; lia). lia. }
    rewrite digitChar_compare by assumption.
    pose proof (Z.mod_pos_bound x p Hp) as Hmx.
    pose proof (Z.mod_pos_bound y p Hp) as Hmy.
    pose proof (Z.div_mod x p ltac:(lia)) as Ex.
    pose proof (Z.div_mod y p ltac:(lia)) as Ey.
    destruct (Z.compare_spec (x / p) (y / p)) as [E|L|G].
    + rewrite IH by assumption.
      destruct (Z.compare_spec (x mod p) (y mod p));
        symmetry; [apply Z.compare_eq_iff|apply Z.compare_lt_iff
                  |apply Z.compare_gt_iff]; nia.
    + symmetry. apply Z.compare_lt_iff. nia.
    + symmetry. apply Z.compare_gt_iff. nia.
Qed.

Lemma fixedDigits_app (a b : nat) :
  forall x y : Z,
    0 <= x < 10 ^ Z.of_nat a -> 0 <= y < 10 ^ Z.of_nat b ->
    fixedDigits (a + b) (x * 10 ^ Z.of_nat b + y)
    = fixedDigits a x ++ fixedDigits b y.
Proof.
  induction a as [|a IH]; intros x y Hx Hy.
  - cbn in Hx. assert (x = 0) by lia. subst x. reflexivity.
  - cbn [plus fixedDigits append].
    rewrite Nat2Z.inj_succ, Z.pow_succ_r in Hx by lia.
    rewrite Nat2Z.inj_add, Z.pow_add_r by lia.
    set (p := 10 ^ Z.of_nat a) in *. set (q := 10 ^ Z.of_nat b) in *.
    assert (Hp : 0 < p) by (apply Z.pow_pos_nonneg; lia).
    assert (Hq : 0 < q) by (apply Z.pow_pos_nonneg; lia).
    pose proof (Z.mod_pos_bound x p Hp) as Hm.
    pose proof (Z.div_mod x p ltac:(lia)) as Ex.
    assert (Hr : 0 <= x mod p * q + y < p * q) by nia.
    assert (Ed : (x * q + y) / (p * q) = x / p).
    { symmetry. apply (Z.div_unique _ _ _ (x mod p * q + y)); [lia|nia]. }
    assert (Em : (x * q + y) mod (p * q) = x mod p * q + y).
    { symmetry. apply (Z.mod_unique _ _ (x / p)); [lia|nia]. }
    rewrite Ed, Em. f_equal. apply IH; lia.
Qed.

Lemma checkFrom_spec (P : Z -> bool) (fuel : nat) :
  forall z0, checkFrom P fuel z0 = true ->
  forall z, z0 <= z < z0 + Z.of_nat fuel -> P z = true.
Proof.
  induction fuel as [|f IH]; intros z0 H z Hz; [lia|].
  cbn [checkFrom] in H. apply andb_prop in H. destruct H as [H0 H1].
  destruct (Z.eq_dec z z0) as [->|Hne]; [exact H0|].
  apply (IH (z0 + 1) H1). lia.
Qed.

Lemma addLeadingZeros_2 (n : Z) :
  0 <= n < 100 -> addLeadingZeros n 2 = fixedDigits 2 n.
Proof.
  intros H. apply String.eqb_eq.
  apply (checkFrom_spec
           (fun z => String.eqb (addLeadingZeros z 2) (fixedDigits 2 z))
           (Z.to_nat 100) 0); [vm_compute; reflexivity|].
  rewrite Z2Nat.id by lia. lia.
Qed.

Lemma addLeadingZeros_4 (n : Z) :
  0 <= n < 10000 -> addLeadingZeros n 4 = fixedDigits 4 n.
Proof.
  intros H. apply String.eqb_eq.
  apply (checkFrom_spec
           (fun z => String.eqb (addLeadingZeros z 4) (fixedDigits 4 z))
           (Z.to_nat 10000) 0); [vm_compute; reflexivity|].
  rewrite Z2Nat.id by lia. lia.
Qed.

End Calendar.

(** ** The formatted strings and the order of instants *)

Lemma formatFields_digits (t : Z) :
  1 <= Time.YearFromTime t <= 9999 ->
  formatFields t = fixedDigits 12 (minuteKey t).
Proof.
  intros Hy. unfold formatFields, formatYear.
  destruct (Z.ltb_spec 0 (Time.YearFromTime t)); [|lia].
  pose proof (minuteKey_fields t) as (Hm & Hd & Hh & Hi).
  rewrite addLeadingZeros_4, !addLeadingZeros_2 by lia.
  rewrite <- (fixedDigits_app 2 2) by (cbn; lia).
  rewrite <- (fixedDigits_app 2 (2 + 2)) by (cbn; lia).
  rewrite <- (fixedDigits_app 2 (2 + (2 + 2))) by (cbn; lia).
  rewrite <- (fixedDigits_app 4 (2 + (2 + (2 + 2)))) by (cbn; lia).
  change (4 + (2 + (2 + (2 + 2))))%nat with 12%nat.
  f_equal. unfold minuteKey.
  change (10 ^ Z.of_nat 2) with 100.
  change (10 ^ Z.of_nat (2 + 2)) with 10000.
  change (10 ^ Z.of_nat (2 + (2 + 2))) with 1000000.
  change (10 ^ Z.of_nat (2 + (2 + (2 + 2)))) with 100000000.
  ring.
Qed.

Lemma minuteKey_range (t : Z) :
  1 <= Time.YearFromTime t <= 9999 -> 0 <= minuteKey t < 10 ^ Z.of_nat 12.
Proof.
  intros Hy. pose proof (minuteKey_fields t) as (Hm & Hd & Hh & Hi).
  change (10 ^ Z.of_nat 12) with 1000000000000.
  unfold minuteKey. lia.
Qed.

(** The formatted strings of two instants with years from 1 to 9999
    compare as their minutes do. *)
Lemma formatFields_compare (a b : Z) :
  1 <= Time.YearFromTime a <= 9999 -> 1 <= Time.YearFromTime b <= 9999 ->
  String.compare (formatFields a) (formatFields b)
  = (a / 60000 ?= b / 60000).
Proof.
  intros Ha Hb. rewrite !formatFields_digits by assumption.
  rewrite fixedDigits_compare by (apply minuteKey_range; assumption).
  apply minuteKey_compare.
Qed.

Section Order.
Variable LocalTZA : Z.

Lemma formatMinute_compare (a b : Z) :
  1 <= Time.YearFromTime (LocalTime LocalTZA a) <= 9999 ->
  1 <= Time.YearFromTime (LocalTime LocalTZA b) <= 9999 ->
  String.compare (formatMinute LocalTZA a) (formatMinute LocalTZA b)
  = (LocalTime LocalTZA a / 60000 ?= LocalTime LocalTZA b / 60000).
Proof. intros Ha Hb. now apply formatFields_compare. Qed.

End Order.

(** ** [Number] on digits *)

Section Digits.
Import StringToNumber.

Lemma digit_code (c : ascii) :
  isDecimalDigit c = true -> 48 <= JSString.code c <= 57.
Proof. unfold isDecimalDigit. lia. Qed.

Lemma digit_not_space (c : ascii) :
  isDecimalDigit c = true -> isWhiteSpace c = false.
Proof. intros H. apply digit_code in H. unfold isWhiteSpace. lia. Qed.

Lemma isChar_inv (c x y : ascii) :
  isChar c (String x "") (String y "") = true -> c = x \/ c = y.
Proof.
  unfold isChar. intros H. apply orb_prop in H.
  destruct H as [H|H]; apply Ascii.eqb_eq in H; auto.
Qed.

(** A digit is none of the other characters the grammar looks for. *)
Ltac not_a_digit H :=
  match goal with
  | |- isChar ?c ?a ?b = false =>
      destruct (isChar c a b) eqn:E; [exfalso|reflexivity];
      apply isChar_inv in E; destruct E; subst; discriminate H
  end.

Lemma digit_isChar (c : ascii) (H : isDecimalDigit c = true) :
  isChar c "x" "X" = false /\ isChar c "o" "O" = false
  /\ isChar c "b" "B" = false /\ isChar c "+" "+" = false
  /\ isChar c "-" "-" = false.
Proof. repeat split; not_a_digit H. Qed.

Lemma dropWhile_digit (l : list ascii) :
  allDigits l -> dropWhile isWhiteSpace l = l.
Proof.
  intros H. destruct H as [|c l Hc Hl]; [reflexivity|].
  cbn. now rewrite digit_not_space.
Qed.

Lemma trim_digits (l : list ascii) : allDigits l -> trim l = l.
Proof.
  intros H. unfold trim. rewrite (dropWhile_digit l H).
  rewrite dropWhile_digit by (apply Forall_rev; exact H).
  apply rev_involutive.
Qed.

Lemma spanDigits_digits (l : list ascii) :
  allDigits l -> spanDigits l = (l, []).
Proof.
  induction 1 as [|c l Hc Hl IH]; [reflexivity|].
  cbn. now rewrite Hc, IH.
Qed.

Lemma digitsValue_digits (l : list ascii) :
  allDigits l ->
  forall acc,
    digitsValue 10 acc l
    = Some (fold_left (fun a c => 10 * a + (JSString.code c - 48)) l acc).
Proof.
  induction 1 as [|c l Hc Hl IH]; intros acc; [reflexivity|].
  cbn [digitsValue fold_left]. unfold digitValue.
  unfold isDecimalDigit in Hc. rewrite Hc.
  apply andb_prop in Hc.
  destruct (Z.ltb_spec (JSString.code c - 48) 10); [|lia].
  apply IH.
Qed.

(** [Number] of a run of decimal digits is the number they write. *)
Lemma Number_digits (l : list ascii) :
  l <> [] -> allDigits l ->
  Number (string_of_list_ascii l) = Fin (JSNum.scale10 (decimalValue l) 0).
Proof.
  intros Hne H. unfold Number, StringToNumber.
  rewrite list_ascii_of_string_of_list_ascii, (trim_digits l H).
  destruct l as [|c l]; [contradiction|].
  assert (Hc : isDecimalDigit c = true) by (now inversion H).
  destruct (digit_isChar c Hc) as (_ & _ & _ & Hplus & Hminus).
  assert (Hnd : nonDecimal (c :: l) = None).
  { unfold nonDecimal. destruct l as [|p r]; [reflexivity|].
    assert (Hp : isDecimalDigit p = true)
      by (inversion H as [|? ? ? H']; now inversion H').
    destruct (digit_isChar p Hp) as (-> & -> & -> & _).
    now destruct (isChar c "0" "0"). }
  rewrite Hnd. unfold decimal. rewrite Hplus, Hminus.
  unfold unsignedDecimal.
  assert (Hinf : String.eqb (string_of_list_ascii (c :: l)) "Infinity"
                 = false).
  { apply String.eqb_neq. cbn. intros [= -> _]. discriminate Hc. }
  rewrite Hinf, (spanDigits_digits _ H). rewrite app_nil_r.
  unfold digits. rewrite (digitsValue_digits _ H). reflexivity.
Qed.

Lemma finiteInteger_scale10 (m : Z) :
  JSNum.finiteInteger (Fin (JSNum.scale10 m 0)) = Some m.
Proof.
  cbn. unfold JSNum.trunc. cbn. rewrite Z.quot_1_r. f_equal. lia.
Qed.

Lemma finiteInteger_scale10_pred (m : Z) :
  JSNum.finiteInteger (JSNum.sub (Fin (JSNum.scale10 m 0)) (JSNum.ofZ 1))
  = Some (m - 1).
Proof.
  cbn. unfold JSNum.trunc. cbn. rewrite Z.quot_1_r. f_equal. lia.
Qed.

Lemma finiteInteger_ofZ (z : Z) : JSNum.finiteInteger (JSNum.ofZ z) = Some z.
Proof. cbn. unfold JSNum.trunc. cbn. now rewrite Z.quot_1_r. Qed.

End Digits.

(** ** The Date of a directory name *)

Lemma finalDateOf_integers (year month date hours minutes seconds ms : JSNumber)
    (y m dt h mi s milli : Z) :
  JSNum.finiteInteger year = Some y ->
  JSNum.finiteInteger month = Some m ->
  JSNum.finiteInteger date = Some dt ->
  JSNum.finiteInteger hours = Some h ->
  JSNum.finiteInteger minutes = Some mi ->
  JSNum.finiteInteger seconds = Some s ->
  JSNum.finiteInteger ms = Some milli ->
  finalDateOf year month date hours minutes seconds ms
  = Some (finalDateOfIntegers y m dt h mi s milli).
Proof.
  intros Hy Hm Hd Hh Hmi Hs Hms.
  unfold finalDateOf, finalDateOfIntegers, Time.MakeDay, Time.MakeTime,
    Time.MakeDate.
  rewrite Hy, Hm, Hd, Hh, Hmi, Hs, Hms.
  destruct ((0 <=? y) && (y <=? 99)).
  - rewrite finiteInteger_ofZ. reflexivity.
  - rewrite Hy. reflexivity.
Qed.

Lemma finalDateOf_NaN (year month date hours minutes seconds ms : JSNumber) :
  year = NaN \/ month = NaN \/ date = NaN \/ hours = NaN \/ minutes = NaN
  \/ seconds = NaN \/ ms = NaN ->
  finalDateOf year month date hours minutes seconds ms = None.
Proof.
  unfold finalDateOf, Time.MakeDay, Time.MakeTime, Time.MakeDate.
  intros [-> | [-> | [-> | [-> | [-> | [-> | ->]]]]]]; cbn.
  - reflexivity.
  - now destruct (JSNum.finiteInteger _).
  - now destruct (JSNum.finiteInteger _), (JSNum.finiteInteger month).
  - now destruct (JSNum.finiteInteger _), (JSNum.finiteInteger month),
      (JSNum.finiteInteger date).
  - destruct (JSNum.finiteInteger _), (JSNum.finiteInteger month),
      (JSNum.finiteInteger date), (JSNum.finiteInteger hours); reflexivity.
  - destruct (JSNum.finiteInteger _), (JSNum.finiteInteger month),
      (JSNum.finiteInteger date), (JSNum.finiteInteger hours),
      (JSNum.finiteInteger minutes); reflexivity.
  - destruct (JSNum.finiteInteger _), (JSNum.finiteInteger month),
      (JSNum.finiteInteger date), (JSNum.finiteInteger hours),
      (JSNum.finiteInteger minutes), (JSNum.finiteInteger seconds);
      reflexivity.
Qed.

Lemma convertTimestampToDate_finalDate (LocalTZA : Z) (T : string) :
  getTime (convertTimestampToDate LocalTZA T)
  = Time.TimeClip (UTC LocalTZA (timestampFinalDate T)).
Proof. reflexivity. Qed.

(** The seven slices of a string of 17 digits, read as numbers. *)
Lemma timestampFinalDate_digits (ds : list ascii) :
  List.length ds = 17%nat -> allDigits ds ->
  timestampFinalDate (string_of_list_ascii ds)
  = Some (finalDateOfIntegers (field ds 0 4) (field ds 4 6 - 1)
            (field ds 6 8) (field ds 8 10) (field ds 10 12)
            (field ds 12 14) (field ds 14 17)).
Proof.
  intros Hlen H.
  do 18 (destruct ds as [|? ds]; try discriminate Hlen). clear Hlen.
  repeat match goal with
         | H : allDigits (_ :: _) |- _ => inversion H; subst; clear H
         | H : Forall _ (_ :: _) |- _ => inversion H; subst; clear H
         end.
  unfold timestampFinalDate, JSString.slice, field.
  cbn [string_of_list_ascii substring Nat.sub firstn skipn].
  repeat match goal with
         | |- context [Number (String ?a (String ?b (String ?c (String ?d EmptyString))))] =>
             change (String a (String b (String c (String d EmptyString))))
               with (string_of_list_ascii [a; b; c; d]);
             rewrite (Number_digits [a; b; c; d])
               by (try discriminate; repeat constructor; assumption)
         | |- context [Number (String ?a (String ?b (String ?c EmptyString)))] =>
             change (String a (String b (String c EmptyString)))
               with (string_of_list_ascii [a; b; c]);
             rewrite (Number_digits [a; b; c])
               by (try discriminate; repeat constructor; assumption)
         | |- context [Number (String ?a (String ?b EmptyString))] =>
             change (String a (String b EmptyString))
               with (string_of_list_ascii [a; b]);
             rewrite (Number_digits [a; b])
               by (try discriminate; repeat constructor; assumption)
         end.
  apply finalDateOf_integers;
    first [apply finiteInteger_scale10 | apply finiteInteger_scale10_pred].
Qed.

Lemma field_ranges (ds : list ascii) :
  List.length ds = 17%nat -> allDigits ds ->
  0 <= field ds 0 4 <= 9999 /\ 0 <= field ds 4 6 <= 99
  /\ 0 <= field ds 6 8 <= 99 /\ 0 <= field ds 8 10 <= 99
  /\ 0 <= field ds 10 12 <= 99 /\ 0 <= field ds 12 14 <= 99
  /\ 0 <= field ds 14 17 <= 999.
Proof.
  intros Hlen H.
  do 18 (destruct ds as [|? ds]; try discriminate Hlen). clear Hlen.
  repeat match goal with
         | H : allDigits (_ :: _) |- _ => inversion H; subst; clear H
         | H : Forall _ (_ :: _) |- _ => inversion H; subst; clear H
         end.
  repeat match goal with
         | H : StringToNumber.isDecimalDigit _ = true |- _ =>
             apply digit_code in H
         end.
  unfold field, decimalValue. cbn [firstn skipn fold_left Nat.sub]. lia.
Qed.

Lemma monthStart_range (m l : Z) :
  l = 0 \/ l = 1 -> 0 <= Time.monthStart m l <= 335.
Proof.
  intros Hl. unfold Time.monthStart.
  repeat match goal with
         | |- context [?a =? ?b] => destruct (Z.eqb_spec a b)
         end; lia.
Qed.

(** The fields of 17 digits denote a local time value between the years
    99 and 10008. *)
Lemma finalDateOfIntegers_range (y m dt h mi s ms : Z) :
  0 <= y <= 9999 -> -1 <= m <= 98 -> 0 <= dt <= 99 -> 0 <= h <= 99 ->
  0 <= mi <= 99 -> 0 <= s <= 99 -> 0 <= ms <= 999 ->
  Z.abs (finalDateOfIntegers y m dt h mi s ms) <= 300000000000000.
Proof.
  intros Hy Hm Hd Hh Hmi Hs Hms. unfold finalDateOfIntegers. cbv zeta.
  set (yr := if (0 <=? y) && (y <=? 99) then 1900 + y else y).
  assert (Hyr : 100 <= yr <= 9999).
  { unfold yr. destruct (Z.leb_spec 0 y), (Z.leb_spec y 99); cbn [andb]; lia. }
  clearbody yr.
  pose proof (monthStart_range (m mod 12) _
                (InLeapYear_cases (yr + m / 12))) as Hms'.
  set (st := Time.monthStart _ _) in *. clearbody st.
  unfold Time.DayFromYear, Time.msPerDay, Time.msPerHour, Time.msPerMinute,
    Time.msPerSecond.
  Z.to_euclidean_division_equations. lia.
Qed.

Section WindowOfFields.
Variable LocalTZA : Z.

(** The window in terms of the local time value of the directory name:
    the host offset cancels. *)
Lemma resolveWindow_of_finalDate (T : string) (now L : Z) :
  timestampFinalDate T = Some L ->
  Z.abs (L - LocalTZA) <= Time.maxTime ->
  Z.abs (L - LocalTZA + 36000000) <= Time.maxTime ->
  Z.abs (now - LocalTZA) <= Time.maxTime ->
  getTime (convertTimestampToDate LocalTZA T) = Some (L - LocalTZA)
  /\ resolveWindow LocalTZA T now
     = Ok (formatFields L,
           if JSString.lt (formatFields (L + 36000000)) (formatFields now)
           then formatFields (L + 36000000) else formatFields now).
Proof.
  intros HL H0 H10 Hc.
  assert (Ht : getTime (convertTimestampToDate LocalTZA T)
               = Some (L - LocalTZA)).
  { rewrite convertTimestampToDate_finalDate, HL.
    unfold UTC, addMs, option_map, Time.TimeClip.
    replace (L + - LocalTZA) with (L - LocalTZA) by lia.
    destruct (Z.leb_spec (Z.abs (L - LocalTZA)) Time.maxTime);
      [reflexivity|lia]. }
  split; [exact Ht|].
  apply resolveWindow_Ok_iff. exists (L - LocalTZA).
  repeat split; try assumption.
  unfold formatMinute, LocalTime.
  replace (L - LocalTZA + LocalTZA) with L by lia.
  replace (L - LocalTZA + 36000000 + LocalTZA) with (L + 36000000) by lia.
  replace (now - LocalTZA + LocalTZA) with now by lia.
  reflexivity.
Qed.

End WindowOfFields.

(** ** The parse, its failures, and the bounds of the window *)

(** C5.  For a string of 17 decimal digits, the Date that the parse
    builds is the Date of the numbers written at the positions 0-4 (year),
    4-6 (month), 6-8 (day), 8-10 (hour), 10-12 (minute), 12-14 (second)
    and 14-17 (millisecond), the month number being passed less one. *)
Theorem convertTimestampToDate_fixed_offsets
    (LocalTZA : Z) (ds : list ascii)
    (Hlength : List.length ds = 17%nat) (Hdigits : allDigits ds) :
  convertTimestampToDate LocalTZA (string_of_list_ascii ds)
  = Date_of_components LocalTZA
      (JSNum.ofZ (field ds 0 4)) (JSNum.ofZ (field ds 4 6 - 1))
      (JSNum.ofZ (field ds 6 8)) (JSNum.ofZ (field ds 8 10))
      (JSNum.ofZ (field ds 10 12)) (JSNum.ofZ (field ds 12 14))
      (JSNum.ofZ (field ds 14 17)).
Proof.
  unfold convertTimestampToDate, Date_of_components.
  fold (timestampFinalDate (string_of_list_ascii ds)).
  rewrite (timestampFinalDate_digits ds Hlength Hdigits).
  rewrite (finalDateOf_integers _ _ _ _ _ _ _ _ _ _ _ _ _ _
             (finiteInteger_ofZ _) (finiteInteger_ofZ _)
             (finiteInteger_ofZ _) (finiteInteger_ofZ _)
             (finiteInteger_ofZ _) (finiteInteger_ofZ _)
             (finiteInteger_ofZ _)).
  reflexivity.
Qed.

(** The name of the first image of the scenario, as a directory name. *)
Lemma convertTimestampToDate_fixed_offsets_witness :
  convertTimestampToDate 0 "20230126052344873"
  = Date_of_components 0 (JSNum.ofZ 2023) (JSNum.ofZ (1 - 1)) (JSNum.ofZ 26)
      (JSNum.ofZ 5) (JSNum.ofZ 23) (JSNum.ofZ 44) (JSNum.ofZ 873).
Proof.
  apply (convertTimestampToDate_fixed_offsets 0
           (list_ascii_of_string "20230126052344873")).
  - reflexivity.
  - repeat constructor.
Defined.

Example convertTimestampToDate_example :
  getTime (convertTimestampToDate 0 "20230126052344873")
  = Some 1674710624873.
Proof. vm_compute. reflexivity. Qed.

Lemma resolveWindow_cases (LocalTZA : Z) (T : string) (now : Z) :
  (exists w, resolveWindow LocalTZA T now = Ok w)
  \/ resolveWindow LocalTZA T now = Throw (Error parseErrorMessage).
Proof.
  destruct (resolveWindow LocalTZA T now) as [w|e] eqn:E.
  - left. now exists w.
  - right. apply resolveWindow_Throw in E. now subst.
Qed.

(** C6, amended.  The window step throws the directory-name error exactly
    when the Date built from the seven slices is invalid, or the instant
    ten hours later or the current instant is out of the range of Date.
    It does so whenever [Number] maps one of the slices to NaN.  Neither
    the length of the name nor the range of its fields is checked: on a
    host within a day of UTC, every string of 17 decimal digits gives a
    window. *)
Theorem parse_step_failure (LocalTZA : Z) (T : string) (now : Z) :
  (resolveWindow LocalTZA T now = Throw (Error parseErrorMessage)
   <-> (getTime (convertTimestampToDate LocalTZA T) = None
        \/ (exists t, getTime (convertTimestampToDate LocalTZA T) = Some t
                      /\ Time.maxTime < Z.abs (t + 10 * 60 * 60 * 1000))
        \/ Time.maxTime < Z.abs (now - LocalTZA)))
  /\
  (Number (JSString.slice T 0 4) = NaN
   \/ Number (JSString.slice T 4 6) = NaN
   \/ Number (JSString.slice T 6 8) = NaN
   \/ Number (JSString.slice T 8 10) = NaN
   \/ Number (JSString.slice T 10 12) = NaN
   \/ Number (JSString.slice T 12 14) = NaN
   \/ Number (JSString.slice T 14 17) = NaN ->
   resolveWindow LocalTZA T now = Throw (Error parseErrorMessage))
  /\
  (forall ds,
     T = string_of_list_ascii ds -> List.length ds = 17%nat ->
     allDigits ds ->
     Z.abs LocalTZA <= Time.msPerDay ->
     Z.abs (now - LocalTZA) <= Time.maxTime ->
     exists startTime endTime,
       resolveWindow LocalTZA T now = Ok (startTime, endTime)).
Proof.
  change (10 * 60 * 60 * 1000) with 36000000.
  assert (Hiff :
    resolveWindow LocalTZA T now = Throw (Error parseErrorMessage)
    <-> (getTime (convertTimestampToDate LocalTZA T) = None
         \/ (exists t, getTime (convertTimestampToDate LocalTZA T) = Some t
                       /\ Time.maxTime < Z.abs (t + 36000000))
         \/ Time.maxTime < Z.abs (now - LocalTZA))).
  { split.
    - intros Hthrow.
      destruct (getTime (convertTimestampToDate LocalTZA T)) as [t|] eqn:Ht;
        [|now left].
      destruct (Z.le_gt_cases (Z.abs (t + 36000000)) Time.maxTime) as [H10|];
        [|right; left; exists t; split; [reflexivity|lia]].
      destruct (Z.le_gt_cases (Z.abs (now - LocalTZA)) Time.maxTime) as [Hc|];
        [|right; right; lia].
      exfalso.
      assert (Hok : resolveWindow LocalTZA T now
                    = Ok (formatMinute LocalTZA t,
                          if JSString.lt (formatMinute LocalTZA (t + 36000000))
                               (formatMinute LocalTZA (now - LocalTZA))
                          then formatMinute LocalTZA (t + 36000000)
                          else formatMinute LocalTZA (now - LocalTZA))).
      { apply resolveWindow_Ok_iff. exists t. auto. }
      rewrite Hok in Hthrow. discriminate.
    - intros Hbad.
      destruct (resolveWindow_cases LocalTZA T now) as [[w Hw]|Hth];
        [exfalso|exact Hth].
      apply resolveWindow_Ok_iff in Hw.
      destruct Hw as (t & Ht & H10 & Hc & _).
      destruct Hbad as [Hn | [(t' & Ht' & Hbig) | Hbig]].
      + congruence.
      + rewrite Ht in Ht'. injection Ht' as <-. lia.
      + lia. }
  split; [exact Hiff|]. split.
  - intros Hnan. apply Hiff. left.
    rewrite convertTimestampToDate_finalDate. unfold timestampFinalDate.
    rewrite finalDateOf_NaN; [reflexivity|].
    destruct Hnan as [H | [H | [H | [H | [H | [H | H]]]]]]; rewrite H;
      cbn [JSNum.sub]; tauto.
  - intros ds -> Hlen Hds Htz Hnow.
    pose proof (timestampFinalDate_digits ds Hlen Hds) as HL.
    pose proof (field_ranges ds Hlen Hds) as (Hy & Hm & Hd & Hh & Hi & Hs & Hms).
    pose proof (finalDateOfIntegers_range _ (field ds 4 6 - 1) _ _ _ _ _
                  Hy ltac:(lia) Hd Hh Hi Hs Hms) as HR.
    set (L := finalDateOfIntegers _ _ _ _ _ _ _) in *.
    unfold Time.msPerDay, Time.maxTime in *.
    destruct (resolveWindow_of_finalDate LocalTZA _ now L HL)
      as [_ Hw]; try (unfold Time.maxTime; lia).
    rewrite Hw. eauto.
Qed.

(** C6 as stated fails: a month 13, a day 32 and an empty name all give a
    window. *)
Lemma out_of_range_fields_roll_over :
  resolveWindow 0 "20231301000000000" 1767225600000
  = Ok ("202401010000", "202401011000")
  /\ resolveWindow 0 "20230132000000000" 1767225600000
     = Ok ("202302010000", "202302011000")
  /\ resolveWindow 0 "" 1767225600000
     = Ok ("189911300000", "189911301000").
Proof. repeat split; vm_compute; reflexivity. Qed.

(** The name of the scenario of the specification does fail. *)
Example not_a_date_fails :
  resolveWindow 0 "not-a-date" 1767225600000
  = Throw (Error parseErrorMessage).
Proof. vm_compute. reflexivity. Qed.

(** C9.  The window step compares no bound with the other: for the
    directory of 1 January 2030 read on 1 January 2026, on a host within
    a day of UTC, the start is later than the current instant, and the
    step returns a window whose [endTime] is the formatted current
    instant, earlier than its [startTime]. *)
Theorem future_start_gives_inverted_window
    (LocalTZA : Z) (Hzone : Z.abs LocalTZA <= Time.msPerDay) :
  exists T now t startTime endTime,
    getTime (convertTimestampToDate LocalTZA T) = Some t
    /\ now < t
    /\ resolveWindow LocalTZA T now = Ok (startTime, endTime)
    /\ format_yyyyMMddHHmm LocalTZA (getTime (utcToZonedTime_UTC LocalTZA now))
       = Ok endTime
    /\ JSString.lt endTime startTime = true.
Proof.
  unfold Time.msPerDay in Hzone.
  exists "20300101000000000", 1767225600000, (1893456000000 - LocalTZA).
  destruct (resolveWindow_of_finalDate LocalTZA "20300101000000000"
              1767225600000 1893456000000)
    as [Ht Hw]; try (unfold Time.maxTime; lia).
  { vm_compute. reflexivity. }
  exists "203001010000", "202601010000".
  split; [exact Ht|]. split; [lia|]. split.
  { rewrite Hw. vm_compute. reflexivity. }
  split; [|vm_compute; reflexivity].
  unfold utcToZonedTime_UTC, UTC, addMs, option_map, getTime.
  replace (1767225600000 + - LocalTZA) with (1767225600000 - LocalTZA)
    by lia.
  assert (E : Time.TimeClip (Some (1767225600000 - LocalTZA))
              = Some (1767225600000 - LocalTZA)).
  { unfold Time.TimeClip, Time.maxTime.
    destruct (Z.leb_spec (Z.abs (1767225600000 - LocalTZA))
                8640000000000000); [reflexivity|lia]. }
  rewrite E, format_Some by (unfold Time.maxTime; lia).
  unfold formatMinute, LocalTime.
  replace (1767225600000 - LocalTZA + LocalTZA) with 1767225600000 by lia.
  vm_compute. reflexivity.
Qed.

(** On a host nine hours east of UTC. *)
Lemma future_start_gives_inverted_window_witness :
  exists T now t startTime endTime,
    getTime (convertTimestampToDate 32400000 T) = Some t
    /\ now < t
    /\ resolveWindow 32400000 T now = Ok (startTime, endTime)
    /\ format_yyyyMMddHHmm 32400000
         (getTime (utcToZonedTime_UTC 32400000 now)) = Ok endTime
    /\ JSString.lt endTime startTime = true.
Proof.
  apply (future_start_gives_inverted_window 32400000).
  vm_compute. discriminate.
Defined.




(* ================================================================== *)
(** * Further properties *)

(** ** The start of the window *)

Section RoundTrip.
Import Time.





End RoundTrip.







Section StartTime.
Variable LocalTZA : Z.


End StartTime.





Lemma substring_append (s1 s2 : string) :
  forall b n : nat,
    (b + n <= String.length s1)%nat ->
    substring b n (s1 ++ s2) = substring b n s1.
Proof.
  induction s1 as [|c s1 IH]; intros b n H.
  - cbn in H. assert (b = 0%nat) by lia. assert (n = 0%nat) by lia.
    subst. now destruct s2.
  - cbn [append]. destruct b as [|b].
    + destruct n as [|n]; [reflexivity|].
      cbn [substring]. f_equal. apply IH. cbn in H. lia.
    + cbn [substring]. apply IH. cbn in H. lia.
Qed.

(** X3.  Only the first 17 characters of a directory name are read: what
    follows them changes neither the Date nor the window. *)
Theorem characters_after_17_are_ignored
    (LocalTZA : Z) (T suffix : string) (now : Z)
    (Hlength : (17 <= String.length T)%nat) :
  convertTimestampToDate LocalTZA (T ++ suffix)
  = convertTimestampToDate LocalTZA T
  /\ resolveWindow LocalTZA (T ++ suffix) now = resolveWindow LocalTZA T now.
Proof.
  assert (E : convertTimestampToDate LocalTZA (T ++ suffix)
              = convertTimestampToDate LocalTZA T).
  { unfold convertTimestampToDate, JSString.slice.
    rewrite !substring_append by (cbn; lia). reflexivity. }
  split; [exact E|]. unfold resolveWindow. now rewrite E.
Qed.

Lemma characters_after_17_are_ignored_witness :
  resolveWindow 0 ("20230126050000000" ++ "_copy") 1674720000000
  = resolveWindow 0 "20230126050000000" 1674720000000.
Proof.
  apply (characters_after_17_are_ignored 0 "20230126050000000" "_copy").
  cbn. lia.
Defined.

(** ** The order of the window *)

Lemma formatMinute_le_mono (LocalTZA a b : Z) :
  1 <= Time.YearFromTime (LocalTime LocalTZA a) <= 9999 ->
  1 <= Time.YearFromTime (LocalTime LocalTZA b) <= 9999 ->
  a <= b ->
  JSString.le (formatMinute LocalTZA a) (formatMinute LocalTZA b) = true.
Proof.
  intros Ha Hb Hab. unfold JSString.le, String.leb.
  rewrite (formatMinute_compare LocalTZA a b Ha Hb).
  assert (H : LocalTime LocalTZA a / 60000 <= LocalTime LocalTZA b / 60000)
    by (apply Z.div_le_mono; unfold LocalTime; lia).
  destruct (Z.compare_spec (LocalTime LocalTZA a / 60000)
              (LocalTime LocalTZA b / 60000)); (reflexivity || lia).
Qed.

(** X4.  When the start is not after the current Date and the years
    involved are from 1 to 9999, the window is ordered: [startTime] is at
    most [endTime]. *)
Theorem window_is_ordered
    (LocalTZA : Z) (T : string) (now t c : Z) (startTime endTime : string)
    (Hstart : getTime (convertTimestampToDate LocalTZA T) = Some t)
    (Hcurrent : getTime (utcToZonedTime_UTC LocalTZA now) = Some c)
    (Hpast : t <= c)
    (Hyt : 1 <= Time.YearFromTime (LocalTime LocalTZA t) <= 9999)
    (Hy10 : 1 <= Time.YearFromTime
                   (LocalTime LocalTZA (t + 10 * 60 * 60 * 1000)) <= 9999)
    (Hyc : 1 <= Time.YearFromTime (LocalTime LocalTZA c) <= 9999)
    (Hwindow : resolveWindow LocalTZA T now = Ok (startTime, endTime)) :
  JSString.le startTime endTime = true.
Proof.
  change (10 * 60 * 60 * 1000) with 36000000 in Hy10.
  apply resolveWindow_Ok_iff in Hwindow.
  destruct Hwindow as (t' & Ht' & _ & Hc & Hw).
  rewrite Hstart in Ht'. injection Ht' as <-. injection Hw as -> ->.
  unfold utcToZonedTime_UTC, UTC, addMs, option_map, getTime,
    Time.TimeClip in Hcurrent.
  replace (now + - LocalTZA) with (now - LocalTZA) in Hcurrent by lia.
  destruct (Z.leb_spec (Z.abs (now - LocalTZA)) Time.maxTime);
    [|discriminate].
  injection Hcurrent as <-.
  destruct (JSString.lt _ _); apply formatMinute_le_mono;
    try assumption; lia.
Qed.

Lemma window_is_ordered_witness :
  JSString.le "202301260500" "202301260800" = true.
Proof.
  apply (window_is_ordered 0 "20230126050000000" 1674720000000
           1674709200000 1674720000000 "202301260500" "202301260800");
    try (vm_compute; reflexivity);
    try (vm_compute; discriminate);
    vm_compute; split; discriminate.
Defined.

(** X5.  Whenever the minute of the start is after the minute of the
    current Date (years from 1 to 9999), the window is inverted:
    [endTime] is the formatted current instant and is smaller than
    [startTime]. *)
Theorem window_is_inverted_for_future_start
    (LocalTZA : Z) (T : string) (now t c : Z) (startTime endTime : string)
    (Hstart : getTime (convertTimestampToDate LocalTZA T) = Some t)
    (Hcurrent : getTime (utcToZonedTime_UTC LocalTZA now) = Some c)
    (Hfuture : LocalTime LocalTZA c / 60000 < LocalTime LocalTZA t / 60000)
    (Hyt : 1 <= Time.YearFromTime (LocalTime LocalTZA t) <= 9999)
    (Hy10 : 1 <= Time.YearFromTime
                   (LocalTime LocalTZA (t + 10 * 60 * 60 * 1000)) <= 9999)
    (Hyc : 1 <= Time.YearFromTime (LocalTime LocalTZA c) <= 9999)
    (Hwindow : resolveWindow LocalTZA T now = Ok (startTime, endTime)) :
  endTime = formatMinute LocalTZA c
  /\ JSString.lt endTime startTime = true.
Proof.
  change (10 * 60 * 60 * 1000) with 36000000 in Hy10.
  apply resolveWindow_Ok_iff in Hwindow.
  destruct Hwindow as (t' & Ht' & _ & Hc & Hw).
  rewrite Hstart in Ht'. injection Ht' as <-. injection Hw as -> ->.
  unfold utcToZonedTime_UTC, UTC, addMs, option_map, getTime,
    Time.TimeClip in Hcurrent.
  replace (now + - LocalTZA) with (now - LocalTZA) in Hcurrent by lia.
  destruct (Z.leb_spec (Z.abs (now - LocalTZA)) Time.maxTime);
    [|discriminate].
  injection Hcurrent as <-.
  assert (H10 : LocalTime LocalTZA (now - LocalTZA) / 60000
                < LocalTime LocalTZA (t + 36000000) / 60000).
  { apply Z.lt_le_trans with (LocalTime LocalTZA t / 60000); [exact Hfuture|].
    apply Z.div_le_mono; unfold LocalTime; lia. }
  assert (E : JSString.lt (formatMinute LocalTZA (t + 36000000))
                (formatMinute LocalTZA (now - LocalTZA)) = false).
  { unfold JSString.lt, String.ltb.
    rewrite (formatMinute_compare LocalTZA _ _ Hy10 Hyc).
    apply Z.compare_gt_iff in H10. now rewrite H10. }
  rewrite E. split; [reflexivity|].
  unfold JSString.lt, String.ltb.
  rewrite (formatMinute_compare LocalTZA _ _ Hyc Hyt).
  apply Z.compare_lt_iff in Hfuture. now rewrite Hfuture.
Qed.

Lemma window_is_inverted_for_future_start_witness :
  "202601010000" = formatMinute 0 1767225600000
  /\ JSString.lt "202601010000" "203001010000" = true.
Proof.
  apply (window_is_inverted_for_future_start 0 "20300101000000000"
           1767225600000 1893456000000 1767225600000
           "203001010000" "202601010000");
    try (vm_compute; reflexivity);
    vm_compute; split; discriminate.
Defined.

(** X6.  On hosts at fixed offsets the window does not depend on the
    offset: two hosts resolve one name at one instant to one window, as
    long as the instants involved stay a day away from the bounds of
    Date. *)
Theorem window_is_zone_independent
    (zone1 zone2 : Z) (T : string) (now L : Z)
    (Hfinal : timestampFinalDate T = Some L)
    (Hzone1 : Z.abs zone1 <= Time.msPerDay)
    (Hzone2 : Z.abs zone2 <= Time.msPerDay)
    (HL : Z.abs L + 36000000 + Time.msPerDay <= Time.maxTime)
    (Hnow : Z.abs now + Time.msPerDay <= Time.maxTime) :
  resolveWindow zone1 T now = resolveWindow zone2 T now.
Proof.
  unfold Time.msPerDay, Time.maxTime in *.
  destruct (resolveWindow_of_finalDate zone1 T now L Hfinal) as [_ ->];
    try (unfold Time.maxTime; lia).
  destruct (resolveWindow_of_finalDate zone2 T now L Hfinal) as [_ ->];
    try (unfold Time.maxTime; lia).
  reflexivity.
Qed.

Lemma window_is_zone_independent_witness :
  resolveWindow 32400000 "20230126050000000" 1674720000000
  = resolveWindow (-18000000) "20230126050000000" 1674720000000.
Proof.
  apply (window_is_zone_independent 32400000 (-18000000)
           "20230126050000000" 1674720000000 1674709200000);
    try (vm_compute; reflexivity); vm_compute; discriminate.
Defined.

(** X7.  The directory name the handler uses when [imagePath] is absent,
    the empty string, is no parse error: every slice is empty, [Number]
    reads each as 0, and the window is the ten hours from 30 November
    1899, 00:00. *)
Theorem empty_directory_window
    (LocalTZA now : Z)
    (Hzone : Z.abs LocalTZA <= Time.msPerDay)
    (Hnow : 0 <= now)
    (Hyear : Time.YearFromTime now <= 9999) :
  resolveWindow LocalTZA "" now = Ok ("189911300000", "189911301000").
Proof.
  unfold Time.msPerDay in Hzone.
  assert (Hmax : now < 300000000000000).
  { destruct (Z.lt_ge_cases now 300000000000000) as [|Hbig]; [assumption|].
    exfalso. unfold Time.YearFromTime in Hyear.
    pose proof (YearFromDay_mono (Time.Day 300000000000000) (Time.Day now)
                  ltac:(unfold Time.Day, Time.msPerDay;
                        apply Z.div_le_mono; lia)) as Hm.
    assert (E : Time.YearFromDay (Time.Day 300000000000000) = 11476)
      by (vm_compute; reflexivity).
    lia. }
  destruct (resolveWindow_of_finalDate LocalTZA "" now (-2211753600000))
    as [_ ->]; try (unfold Time.maxTime; lia).
  { vm_compute. reflexivity. }
  change (-2211753600000 + 36000000) with (-2211717600000).
  assert (Hy0 : 1 <= Time.YearFromTime now).
  { unfold Time.YearFromTime.
    pose proof (YearFromDay_mono (Time.Day 0) (Time.Day now)
                  ltac:(unfold Time.Day, Time.msPerDay;
                        apply Z.div_le_mono; lia)) as Hm.
    assert (E : Time.YearFromDay (Time.Day 0) = 1970)
      by (vm_compute; reflexivity).
    lia. }
  assert (Hlt : JSString.lt (formatFields (-2211717600000))
                  (formatFields now) = true).
  { unfold JSString.lt, String.ltb.
    rewrite formatFields_compare;
      [|vm_compute; split; discriminate|lia].
    assert (H : -2211717600000 / 60000 < now / 60000).
    { apply Z.lt_le_trans with (0 / 60000); [vm_compute; reflexivity|].
      apply Z.div_le_mono; lia. }
    apply Z.compare_lt_iff in H. now rewrite H. }
  rewrite Hlt. vm_compute. reflexivity.
Qed.

Lemma empty_directory_window_witness :
  resolveWindow 32400000 "" 1767225600000
  = Ok ("189911300000", "189911301000").
Proof.
  apply (empty_directory_window 32400000 1767225600000);
    vm_compute; discriminate.
Defined.

(** ** The loop *)

(** One iteration of the loop after a lookup that answered 200. *)
Lemma processImages_step (c : Console) (d : Decoder) (deviceId : string)
    (i : nat) (img : Image) (rest : list Image) (outputList : list Output)
    (resInference : InferenceResponse) :
  getInferenceResults c i deviceId 1 1
    (JSString.replace (name img) ".jpg" "") = Ok resInference ->
  status resInference = 200 ->
  processImages c d deviceId i (img :: rest) outputList
  = (payload <- inferencePayload resInference ;;
     output <- assembleOutput d ("data:image/jpg;base64," ++ contents img)
                 (JSString.replace (name img) ".jpg" "") payload ;;
     processImages c d deviceId (S i) rest (outputList ++ [output])%list).
Proof.
  intros Hl Hs. cbn [processImages]. rewrite Hl. cbn [bind].
  now rewrite Hs.
Qed.

(** X8.  A payload that is present but empty is rejected like an absent
    one: after a lookup that answered 200 with
    [data[0].inference_result.Inferences[0].O] equal to the empty string,
    the loop throws 'Cannot get inference results.' and the decoder is
    not reached. *)
Theorem empty_payload_is_rejected
    (c : Console) (d : Decoder) (deviceId : string) (i : nat)
    (img : Image) (rest : list Image) (outputList : list Output)
    (resInference : InferenceResponse)
    (entry : InferenceEntry) (entries : list InferenceEntry)
    (inference : Inference) (inferences : list Inference)
    (Hlookup : getInferenceResults c i deviceId 1 1
                 (JSString.replace (name img) ".jpg" "") = Ok resInference)
    (Hstatus : status resInference = 200)
    (Hdata : data resInference = entry :: entries)
    (Hinferences : Inferences (inference_result entry)
                   = inference :: inferences)
    (Hempty : O inference = Some "") :
  processImages c d deviceId i (img :: rest) outputList
  = Throw (Error "Cannot get inference results.").
Proof.
  rewrite (processImages_step _ _ _ _ _ _ _ _ Hlookup Hstatus).
  unfold inferencePayload. rewrite Hdata, Hinferences, Hempty. reflexivity.
Qed.

Lemma empty_payload_is_rejected_witness :
  processImages (Scenario.console [Scenario.first] [Scenario.found ""])
    Scenario.decoder "device" 0 [Scenario.first] []
  = Throw (Error "Cannot get inference results.").
Proof.
  apply (empty_payload_is_rejected
           (Scenario.console [Scenario.first] [Scenario.found ""])
           Scenario.decoder "device" 0 Scenario.first [] []
           (Scenario.found "")
           (mkEntry (mkInferenceResult [mkInference (Some "")])) []
           (mkInference (Some "")) []); reflexivity.
Defined.

(** X9.  When the decoder throws on the payload of an image, the loop
    throws a fresh Error with the decoder's message: a response that the
    thrown value carried is dropped, and no list is returned. *)
Theorem decoder_failure_aborts
    (c : Console) (d : Decoder) (deviceId : string) (i : nat)
    (img : Image) (rest : list Image) (outputList : list Output)
    (resInference : InferenceResponse) (payload : string) (err : JSError)
    (Hlookup : getInferenceResults c i deviceId 1 1
                 (JSString.replace (name img) ".jpg" "") = Ok resInference)
    (Hstatus : status resInference = 200)
    (Hpayload : inferencePayload resInference = Ok payload)
    (Hdecode : deserializeObjectDetection d (Buffer_from_base64 d payload)
               = Throw err) :
  processImages c d deviceId i (img :: rest) outputList
  = Throw (mkError (message err) None).
Proof.
  rewrite (processImages_step _ _ _ _ _ _ _ _ Hlookup Hstatus).
  rewrite Hpayload. cbn [bind]. unfold assembleOutput, try_catch.
  rewrite Hdecode. reflexivity.
Qed.

(** A decoder that rejects every buffer with an error that carries a
    response. *)
Lemma decoder_failure_aborts_witness :
  processImages (Scenario.console [Scenario.first] [Scenario.found "CgA="])
    (mkDecoder string list_byte_of_string
       (fun _ => Throw (mkError "Malformed buffer" (Some "remote")))
       (fun s => s))
    "device" 0 [Scenario.first] []
  = Throw (mkError "Malformed buffer" None).
Proof.
  apply (decoder_failure_aborts
           (Scenario.console [Scenario.first] [Scenario.found "CgA="])
           (mkDecoder string list_byte_of_string
              (fun _ => Throw (mkError "Malformed buffer" (Some "remote")))
              (fun s => s))
           "device" 0 Scenario.first [] [] (Scenario.found "CgA=") "CgA="
           (mkError "Malformed buffer" (Some "remote"))); reflexivity.
Defined.

Lemma prefix_append (p s : string) :
  prefix p s = true -> exists r, s = p ++ r.
Proof.
  revert s. induction p as [|a p IH]; intros s H.
  - exists s. reflexivity.
  - destruct s as [|b s]; [discriminate|]. cbn in H.
    destruct (ascii_dec a b) as [->|]; [|discriminate].
    destruct (IH s H) as [r ->]. exists r. reflexivity.
Qed.

(** [replace] leaves a string without the pattern as it is. *)
Lemma replace_absent (s pat rep : string) :
  (forall a b, s <> a ++ pat ++ b) ->
  JSString.replace s pat rep = s.
Proof.
  induction s as [|c s IH]; intros Hfree.
  - destruct pat as [|a pat]; [|reflexivity].
    exfalso. apply (Hfree "" ""). reflexivity.
  - cbn [JSString.replace]. destruct (prefix pat (String c s)) eqn:Hp.
    + apply prefix_append in Hp. destruct Hp as [r Hr].
      exfalso. apply (Hfree "" r). exact Hr.
    + f_equal. apply IH. intros a b ->.
      apply (Hfree (String c a) b). reflexivity.
Qed.

(** X10.  A listed name that holds no ['.jpg'] is used whole: the record
    returned for it has the name itself as [timestamp]. *)
Theorem name_without_jpg_is_kept
    (LocalTZA : Z) (c : Console) (d : Decoder) (now : Z)
    (deviceId outputSubDir : string) (numberOfImages : JSNumber)
    (outputList : list Output)
    (Hreturn : getImageAndInference LocalTZA c d now deviceId outputSubDir
                 numberOfImages = Ok outputList) :
  exists startTime endTime images,
    getImages c deviceId outputSubDir numberOfImages 0 "DESC"
      startTime endTime = Ok images
    /\ Forall2 (fun img out =>
                  (forall a b, name img <> a ++ ".jpg" ++ b) ->
                  timestamp out = name img)
         images outputList.
Proof.
  unfold getImageAndInference, try_catch in Hreturn.
  destruct (getConsoleSettings c); [|discriminate]. cbn [bind] in Hreturn.
  destruct (createInstance c); [|discriminate]. cbn [bind] in Hreturn.
  destruct (resolveWindow LocalTZA outputSubDir now) as [[s e]|];
    [|discriminate].
  cbn [bind] in Hreturn.
  destruct (getImages c deviceId outputSubDir numberOfImages 0 "DESC" s e)
    as [images|] eqn:Hi; [|discriminate].
  cbn [bind] in Hreturn. apply processImages_records in Hreturn.
  destruct Hreturn as (news & -> & HF).
  exists s, e, images. split; [exact Hi|]. cbn [app].
  eapply Forall2_impl; [|exact HF].
  intros img out [Ht _] Hfree. rewrite Ht. now apply replace_absent.
Qed.

Lemma name_without_jpg_is_kept_witness :
  exists startTime endTime images,
    getImages (Scenario.console [mkImage "20230126052344873.png" "AAAA"]
                 [Scenario.found "CgA="])
      "device" Scenario.directory (JSNum.ofZ 1) 0 "DESC" startTime endTime
    = Ok images
    /\ Forall2 (fun img out =>
                  (forall a b, name img <> a ++ ".jpg" ++ b) ->
                  timestamp out = name img)
         images
         [mkOutput "data:image/jpg;base64,AAAA" "CgA="
            "20230126052344873.png"].
Proof.
  apply (name_without_jpg_is_kept 0
           (Scenario.console [mkImage "20230126052344873.png" "AAAA"]
              [Scenario.found "CgA="])
           Scenario.decoder Scenario.now "device" Scenario.directory
           (JSNum.ofZ 1)).
  vm_compute. reflexivity.
Defined.

Lemma hasPayload_Ok (resInference : InferenceResponse) (payload : string) :
  hasPayload resInference payload ->
  inferencePayload resInference = Ok payload.
Proof.
  intros (entry & entries & inf & infs & Hd & Hi & HO & Hne).
  unfold inferencePayload. rewrite Hd, Hi, HO.
  destruct payload; [contradiction|reflexivity].
Qed.

Lemma processImages_succeeds (c : Console) (d : Decoder) (deviceId : string)
    (images : list Image) :
  forall (i : nat) (acc : list Output),
    (forall k img, nth_error images k = Some img ->
                   imageDecodes c d deviceId (i + k) img) ->
    exists news,
      processImages c d deviceId i images acc = Ok (acc ++ news)%list
      /\ List.length news = List.length images.
Proof.
  induction images as [|img images IH]; intros i acc H.
  - exists []. cbn. now rewrite app_nil_r.
  - destruct (H 0%nat img eq_refl) as (res & p & det & Hl & Hs & Hp & Hd).
    rewrite Nat.add_0_r in Hl.
    rewrite (processImages_step _ _ _ _ _ _ _ _ Hl Hs).
    rewrite (hasPayload_Ok _ _ Hp). cbn [bind].
    unfold assembleOutput, try_catch. rewrite Hd. cbn [bind].
    destruct (IH (S i) (acc ++ [mkOutput
                 ("data:image/jpg;base64," ++ contents img)
                 (JSON_stringify d det)
                 (JSString.replace (name img) ".jpg" "")])%list)
      as (news & -> & Hlen).
    { intros k img' Hk. specialize (H (S k) img' Hk).
      now rewrite Nat.add_succ_r in H. }
    eexists (_ :: news). rewrite <- app_assoc. split; [reflexivity|].
    cbn. now rewrite Hlen.
Qed.

(** X11.  When the settings are read, the client is built, the window is
    resolved and every listed image is looked up with status 200, has a
    non-empty payload and decodes, the retrieval returns a list: one
    record per listed image. *)
Theorem retrieval_succeeds
    (LocalTZA : Z) (c : Console) (d : Decoder) (now : Z)
    (deviceId outputSubDir : string) (numberOfImages : JSNumber)
    (startTime endTime : string) (u u' : unit) (images : list Image)
    (Hsettings : getConsoleSettings c = Ok u')
    (Hclient : createInstance c = Ok u)
    (Hwindow : resolveWindow LocalTZA outputSubDir now
               = Ok (startTime, endTime))
    (Hlisting : getImages c deviceId outputSubDir numberOfImages 0 "DESC"
                  startTime endTime = Ok images)
    (Hall : forall k img, nth_error images k = Some img ->
                          imageDecodes c d deviceId k img) :
  exists outputList,
    getImageAndInference LocalTZA c d now deviceId outputSubDir
      numberOfImages = Ok outputList
    /\ List.length outputList = List.length images.
Proof.
  erewrite getImageAndInference_listing by eassumption.
  destruct (processImages_succeeds c d deviceId images 0 [] Hall)
    as (news & -> & Hlen).
  exists news. auto.
Qed.

Lemma retrieval_succeeds_witness :
  exists outputList,
    getImageAndInference 0
      (Scenario.console [Scenario.first; Scenario.second]
         [Scenario.found "CgA="; Scenario.found "CgB="])
      Scenario.decoder Scenario.now "device" Scenario.directory
      (JSNum.ofZ 2) = Ok outputList
    /\ List.length outputList = 2%nat.
Proof.
  apply (retrieval_succeeds 0
           (Scenario.console [Scenario.first; Scenario.second]
              [Scenario.found "CgA="; Scenario.found "CgB="])
           Scenario.decoder Scenario.now "device" Scenario.directory
           (JSNum.ofZ 2) "202301260500" "202301260800" tt tt
           [Scenario.first; Scenario.second]).
  - reflexivity.
  - reflexivity.
  - vm_compute; reflexivity.
  - reflexivity.
  - intros [|[|k]] img Hk; try (destruct k; discriminate Hk);
      injection Hk as <-.
    + exists (Scenario.found "CgA="), "CgA=", "CgA=".
      repeat split.
      eexists _, _, _, _. repeat split; discriminate.
    + exists (Scenario.found "CgB="), "CgB=", "CgB=".
      repeat split.
      eexists _, _, _, _. repeat split; discriminate.
Defined.

(** ** The answers of the handler *)

Lemma withDefault_toString (q : option QueryValue) :
  withDefault q queryToString ""
  = match q with Some v => queryToString v | None => "" end.
Proof. destruct q as [[[|ch s]|l]|]; reflexivity. Qed.

(** What the handler answers to a GET request with a [deviceId]. *)
Lemma handler_runs (LocalTZA : Z) (c : Console) (d : Decoder) (now : Z)
    (req : Request) (id : QueryValue) :
  method req = Some "GET" ->
  query_deviceId req = Some id -> id <> QString "" ->
  handler LocalTZA c d now req
  = match getImageAndInference LocalTZA c d now (queryToString id)
            (match query_imagePath req with
             | Some v => queryToString v
             | None => ""
             end)
            (withDefault (query_numberOfImages req)
               (fun v => parseInt10 (queryToString v)) (JSNum.ofZ 5)) with
    | Ok result => mkHttpResponse 200 (OutputBody result)
    | Throw err =>
        match response err with
        | Some remoteMessage => mkHttpResponse 500 (MessageBody remoteMessage)
        | None => mkHttpResponse 500 (MessageBody (message err))
        end
    end.
Proof.
  intros Hm Hid Hne. unfold handler. rewrite Hm.
  change (negb (String.eqb "GET" "GET")) with false. cbv iota.
  assert (Ht : queryTruthy (query_deviceId req) = true).
  { destruct (queryTruthy (query_deviceId req)) eqn:E; [reflexivity|].
    apply queryTruthy_false in E. destruct E as [E|E]; congruence. }
  rewrite Ht. cbn [negb].
  rewrite !withDefault_toString, Hid. reflexivity.
Qed.

(** X12.  Whatever the construction of the client throws, the caller sees
    'Wrong setting. Check the settings.': a GET request with a [deviceId]
    is answered 500 with that message, also when the thrown value carried
    a remote response. *)
Theorem client_failure_is_masked
    (LocalTZA : Z) (c : Console) (d : Decoder) (now : Z)
    (req : Request) (id : QueryValue) (u : unit) (err : JSError)
    (Hmethod : method req = Some "GET")
    (Hid : query_deviceId req = Some id) (Hnonempty : id <> QString "")
    (Hsettings : getConsoleSettings c = Ok u)
    (Hclient : createInstance c = Throw err) :
  handler LocalTZA c d now req
  = mkHttpResponse 500 (MessageBody "Wrong setting. Check the settings.").
Proof.
  rewrite (handler_runs _ _ _ _ _ _ Hmethod Hid Hnonempty).
  unfold getImageAndInference, try_catch. rewrite Hsettings, Hclient.
  reflexivity.
Qed.

Lemma client_failure_is_masked_witness :
  handler 0
    (mkConsole (Ok tt) (Throw (mkError "401" (Some "Unauthorized")))
       (fun _ _ _ _ _ _ _ => Ok []) (fun _ _ _ _ _ => Throw (Error "")))
    Scenario.decoder Scenario.now
    (mkRequest (Some "GET") (Some (QString "device")) None None)
  = mkHttpResponse 500 (MessageBody "Wrong setting. Check the settings.").
Proof.
  apply (client_failure_is_masked 0 _ Scenario.decoder Scenario.now _
           (QString "device") tt (mkError "401" (Some "Unauthorized")));
    (reflexivity || discriminate).
Defined.

(** X13.  A directory name whose Date is invalid is answered 500 with the
    directory-name message, and the listing is not consulted: the answer
    is the same whatever the service would list. *)
Theorem invalid_directory_is_answered_500
    (LocalTZA : Z) (c : Console) (d : Decoder) (now : Z)
    (req : Request) (id path : QueryValue) (u u' : unit)
    (Hmethod : method req = Some "GET")
    (Hid : query_deviceId req = Some id) (Hnonempty : id <> QString "")
    (Hsettings : getConsoleSettings c = Ok u)
    (Hclient : createInstance c = Ok u')
    (Hpath : query_imagePath req = Some path)
    (Hinvalid : getTime (convertTimestampToDate LocalTZA (queryToString path))
                = None) :
  handler LocalTZA c d now req
  = mkHttpResponse 500
      (MessageBody
         "Cannot parse image directory name. Check that the directory name is correct date format.").
Proof.
  rewrite (handler_runs _ _ _ _ _ _ Hmethod Hid Hnonempty), Hpath.
  unfold getImageAndInference, try_catch at 1. rewrite Hsettings, Hclient.
  cbn [bind]. unfold resolveWindow, format_yyyyMMddHHmm, Date_of_value.
  rewrite Hinvalid. reflexivity.
Qed.

Lemma invalid_directory_is_answered_500_witness :
  handler 0 (Scenario.console [Scenario.first] [Scenario.found "CgA="])
    Scenario.decoder Scenario.now
    (mkRequest (Some "GET") (Some (QString "device"))
       (Some (QString "not-a-date")) None)
  = mkHttpResponse 500
      (MessageBody
         "Cannot parse image directory name. Check that the directory name is correct date format.").
Proof.
  apply (invalid_directory_is_answered_500 0 _ Scenario.decoder Scenario.now
           _ (QString "device") (QString "not-a-date") tt tt);
    (reflexivity || discriminate).
Defined.

(** X14.  A rejection of the image listing reaches the caller unchanged:
    the answer is 500 with the message of the remote response when the
    thrown value carries one, and with the message of the thrown value
    otherwise. *)
Theorem listing_rejection_reaches_handler
    (LocalTZA : Z) (c : Console) (d : Decoder) (now : Z)
    (req : Request) (id : QueryValue) (u u' : unit)
    (startTime endTime : string) (err : JSError)
    (Hmethod : method req = Some "GET")
    (Hid : query_deviceId req = Some id) (Hnonempty : id <> QString "")
    (Hsettings : getConsoleSettings c = Ok u)
    (Hclient : createInstance c = Ok u')
    (Hwindow : resolveWindow LocalTZA
                 (match query_imagePath req with
                  | Some v => queryToString v
                  | None => ""
                  end) now = Ok (startTime, endTime))
    (Hlisting : forall count,
        getImages c (queryToString id)
          (match query_imagePath req with
           | Some v => queryToString v
           | None => ""
           end) count 0 "DESC" startTime endTime = Throw err) :
  handler LocalTZA c d now req
  = mkHttpResponse 500
      (MessageBody match response err with
                   | Some remoteMessage => remoteMessage
                   | None => message err
                   end).
Proof.
  rewrite (handler_runs _ _ _ _ _ _ Hmethod Hid Hnonempty).
  unfold getImageAndInference, try_catch. rewrite Hsettings, Hclient.
  cbn [bind]. rewrite Hwindow. cbn [bind]. rewrite Hlisting. cbn [bind].
  now destruct (response err).
Qed.

Lemma listing_rejection_reaches_handler_witness :
  handler 0
    (mkConsole (Ok tt) (Ok tt)
       (fun _ _ _ _ _ _ _ =>
          Throw (mkError "Request failed with status code 403"
                   (Some "Forbidden")))
       (fun _ _ _ _ _ => Throw (Error "")))
    Scenario.decoder Scenario.now
    (mkRequest (Some "GET") (Some (QString "device"))
       (Some (QString Scenario.directory)) None)
  = mkHttpResponse 500 (MessageBody "Forbidden").
Proof.
  apply (listing_rejection_reaches_handler 0 _ Scenario.decoder Scenario.now
           _ (QString "device") tt tt "202301260500" "202301260800"
           (mkError "Request failed with status code 403"
              (Some "Forbidden")));
    try reflexivity; discriminate.
Defined.

(** [parseInt(s, 10)] of a string that starts with neither white space,
    a sign nor a digit. *)
Lemma parseInt10_NaN (ch : ascii) (rest : string) :
  StringToNumber.isWhiteSpace ch = false ->
  StringToNumber.isDecimalDigit ch = false ->
  ch <> "+"%char -> ch <> "-"%char ->
  parseInt10 (String ch rest) = NaN.
Proof.
  intros Hw Hd Hp Hm. unfold parseInt10.
  cbn [list_ascii_of_string StringToNumber.dropWhile]. rewrite Hw.
  assert (E1 : StringToNumber.isChar ch "+" "+" = false).
  { destruct (StringToNumber.isChar ch "+" "+") eqn:E; [|reflexivity].
    apply isChar_inv in E. tauto. }
  assert (E2 : StringToNumber.isChar ch "-" "-" = false).
  { destruct (StringToNumber.isChar ch "-" "-") eqn:E; [|reflexivity].
    apply isChar_inv in E. tauto. }
  rewrite E1, E2. cbn [StringToNumber.spanDigits]. rewrite Hd. reflexivity.
Qed.

(** X15.  A [numberOfImages] that does not start with white space, a sign
    or a digit is neither rejected nor replaced by the default: the
    retrieval is run with NaN as the count. *)
Theorem non_numeric_count_is_NaN
    (LocalTZA : Z) (c : Console) (d : Decoder) (now : Z)
    (req : Request) (id : QueryValue) (ch : ascii) (rest : string)
    (Hmethod : method req = Some "GET")
    (Hid : query_deviceId req = Some id) (Hnonempty : id <> QString "")
    (Hcount : query_numberOfImages req = Some (QString (String ch rest)))
    (Hspace : StringToNumber.isWhiteSpace ch = false)
    (Hdigit : StringToNumber.isDecimalDigit ch = false)
    (Hplus : ch <> "+"%char) (Hminus : ch <> "-"%char) :
  handler LocalTZA c d now req
  = match getImageAndInference LocalTZA c d now (queryToString id)
            (match query_imagePath req with
             | Some v => queryToString v
             | None => ""
             end) NaN with
    | Ok result => mkHttpResponse 200 (OutputBody result)
    | Throw err =>
        match response err with
        | Some remoteMessage => mkHttpResponse 500 (MessageBody remoteMessage)
        | None => mkHttpResponse 500 (MessageBody (message err))
        end
    end.
Proof.
  rewrite (handler_runs _ _ _ _ _ _ Hmethod Hid Hnonempty), Hcount.
  unfold withDefault. cbn [queryTruthy JSString.truthy queryToString].
  now rewrite (parseInt10_NaN ch rest Hspace Hdigit Hplus Hminus).
Qed.

(** The count the listing is asked for, recorded in the message it
    rejects with. *)
Lemma non_numeric_count_is_NaN_witness :
  handler 0
    (mkConsole (Ok tt) (Ok tt)
       (fun _ _ n _ _ _ _ =>
          Throw (Error match n with NaN => "NaN" | _ => "a number" end))
       (fun _ _ _ _ _ => Throw (Error "")))
    Scenario.decoder Scenario.now
    (mkRequest (Some "GET") (Some (QString "device"))
       (Some (QString Scenario.directory)) (Some (QString "five")))
  = mkHttpResponse 500 (MessageBody "NaN").
Proof.
  rewrite (non_numeric_count_is_NaN 0 _ Scenario.decoder Scenario.now _
             (QString "device") "f"%char "ive");
    try reflexivity; discriminate.
Defined.




